(** * PDFRenderer: a shallow embedding of [src/js/PDFRenderer.js]

    The renderer is UI glue between an application shell (tab manager,
    sidebar, page-number input), the DOM and the PDF.js library.  The
    embedding keeps the renderer's own code as it is written and represents
    the three collaborators by the part of their state the renderer reads
    or writes.

    JavaScript numbers are IEEE 754 binary64 values.  Pixel sizes are
    represented by the rational ([Q]) a finite double stands for, and every
    arithmetic operation of the renderer rounds its exact result to the
    nearest double ([js_round]); page counts and indices are integers ([Z],
    [nat]).  Every [async] method is a program of the [Async] monad
    below, whose [Await] nodes mark the places where the JavaScript event
    loop may run other handlers.  The methods [fitToWidth] and [exportPDF]
    are left out. *)

From Stdlib Require Import ZArith QArith Qround Qabs Qpower String List Lia.
From Stdlib Require Floats.
From stdpp Require Import base option list gmap.
Import ListNotations.

Local Open Scope string_scope.

(** ** Values *)

Definition TabId := nat.
Definition Error := string.

(** [x || d] on a possibly missing number: [undefined] and [0] are falsy. *)
Definition or_default_Q (x : option Q) (d : Q) : Q :=
  match x with
  | Some q => if Qeq_bool q 0 then d else q
  | None => d
  end.

Definition or_default_Z (x : option Z) (d : Z) : Z :=
  match x with
  | Some z => if Z.eqb z 0 then d else z
  | None => d
  end.

(** *** Arithmetic on doubles

    [Qlog2 q] is the exponent [e] with [2 ^ e <= q < 2 ^ (e + 1)], for a
    positive [q]. *)
Definition Qlog2 (q : Q) : Z :=
  let e := (Z.log2 (Qnum q) - Z.log2 (Z.pos (Qden q)))%Z in
  if Qle_bool (Qpower 2 e) q then e else (e - 1)%Z.

(** The nearest integer, ties to the even one. *)
Definition round_half_even (x : Q) : Z :=
  let f := Qfloor x in
  match Qcompare (x - inject_Z f)%Q (1 # 2)%Q with
  | Lt => f
  | Gt => (f + 1)%Z
  | Eq => if Z.even f then f else (f + 1)%Z
  end.

(** The double nearest to [q] (round to nearest, ties to even): 53
    significant bits, exponents from -1022 on, subnormal numbers below.  A
    result that overflows is [Infinity], which [2 ^ 1024] stands for;
    [NaN] has no representation, and none of the operations below produces
    it from finite numbers other than a division by zero, which the
    renderer does not perform. *)
Definition js_round (q : Q) : Q :=
  if Qeq_bool q 0 then 0%Q else
    let a := Qabs q in
    let e := Z.max (Qlog2 a) (-1022) in
    let m := round_half_even (a * Qpower 2 (52 - e))%Q in
    let r := Qred (inject_Z m * Qpower 2 (e - 52))%Q in
    let r := if Qle_bool (Qpower 2 1024) r then Qpower 2 1024 else r in
    if Qle_bool 0 q then r else (- r)%Q.

(** [a * b], [a + b] and [a / b] on doubles. *)
Definition js_mul (a b : Q) : Q := js_round (a * b)%Q.
Definition js_add (a b : Q) : Q := js_round (a + b)%Q.
Definition js_div (a b : Q) : Q := js_round (a / b)%Q.

(** The rational a finite hardware double stands for, and the hardware
    quotient of two small integers; they serve to compare [js_round] with
    the arithmetic of the machine. *)
Definition float_value (f : PrimFloat.float) : option Q :=
  match FloatOps.Prim2SF f with
  | SpecFloat.S754_zero _ => Some 0%Q
  | SpecFloat.S754_finite sign m e =>
      Some (Qred ((if sign then - inject_Z (Z.pos m) else inject_Z (Z.pos m))
                  * Qpower 2 e)%Q)
  | _ => None
  end.

Definition float_ratio (n d : Z) : PrimFloat.float :=
  PrimFloat.div (PrimFloat.of_uint63 (Uint63.of_Z n))
                (PrimFloat.of_uint63 (Uint63.of_Z d)).

(** [q] is a double. *)
Definition is_double (q : Q) : bool := Qeq_bool (js_round q) q.

(** What [canvas.width] and [canvas.height] hold after [v] is assigned to
    them.  The attribute is an [unsigned long]: the number is first taken
    modulo [2 ^ 32]; it is kept if it is at most [2 ^ 31 - 1], and replaced
    by the attribute's default (300 for the width, 150 for the height)
    otherwise. *)
Definition canvas_dimension (default v : Z) : Z :=
  let n := (v mod 2 ^ 32)%Z in
  if (n <=? 2147483647)%Z then n else default.

(** ** The PDF.js library, seen from the renderer *)

(** The object [page.getViewport({ scale, rotation })] returns. *)
Record Viewport := {
  vp_scale : Q;
  vp_rotation : Z;
  vp_width : Q;
  vp_height : Q
}.

(** A page proxy.  Promises are represented by their outcome: [None] for a
    promise that resolves, [Some e] for one that rejects with [e]. *)
Record PDFPage := {
  page_size : Q -> Z -> Q * Q;
  page_render : option Error;
  page_getTextContent : option Error;
  page_textLayer : option Error
}.

Definition getViewport (page : PDFPage) (scale : Q) (rotation : Z) : Viewport :=
  {| vp_scale := scale;
     vp_rotation := rotation;
     vp_width := fst (page_size page scale rotation);
     vp_height := snd (page_size page scale rotation) |}.

(** What the library makes of a byte string. *)
Record PDFBody := {
  body_numPages : nat;
  body_getPage : nat -> Error + PDFPage
}.

(** A document handle ([PDFDocumentProxy]); [doc_id] is its identity. *)
Record PDFDocument := {
  doc_id : nat;
  doc_body : PDFBody
}.

Definition numPages (doc : PDFDocument) : nat := body_numPages (doc_body doc).
Definition getPage (doc : PDFDocument) (pageNum : nat) : Error + PDFPage :=
  body_getPage (doc_body doc) pageNum.

Definition Data := list Byte.byte.

(** ** DOM elements built by the renderer *)

Record Canvas := {
  canvas_width : Z;
  canvas_height : Z;
  canvas_style_width : Q;
  canvas_style_height : Q;
  canvas_transform : Q;
  canvas_painted : Viewport
}.

Record TextLayer := {
  text_style_width : Q;
  text_style_height : Q;
  text_rendered : bool
}.

Record AnnotationLayer := {
  ann_style_width : Q;
  ann_style_height : Q;
  ann_page : nat;
  ann_tab : TabId
}.

Inductive Node :=
| CanvasNode (c : Canvas)
| TextLayerNode (t : TextLayer)
| AnnotationLayerNode (a : AnnotationLayer).

(** A [div.page-container].  [pc_node] is the identity of the element. *)
Record PageContainer := {
  pc_node : nat;
  pc_page : nat;
  pc_style_width : Q;
  pc_style_height : Q;
  pc_children : list Node
}.

Inductive ViewerChild :=
| EmptyState
| Page (pc : PageContainer).

Record Rect := {
  rect_top : Q;
  rect_bottom : Q;
  rect_height : Q
}.

(** ** The application shell *)

(** Modelled from the spec: the tab objects of the external tab manager,
    with the per-tab view state section 3 lists (zoom factor, rotation
    angle, page layout mode, current page number, scroll offset).  A field
    that has not been set is [None]. *)
Record Tab := {
  tab_zoom : option Q;
  tab_rotation : option Z;
  tab_pageLayout : string;
  tab_currentPage : option Z;
  tab_scrollPosition : option Q
}.

(** The properties of a tab the renderer writes. *)
Inductive TabUpdate :=
| UpdZoom (zoom : Q)
| UpdCurrentPage (pageNum : Z)
| UpdScrollPosition (scrollTop : Q).

Definition apply_update (u : TabUpdate) (tab : Tab) : Tab :=
  match u with
  | UpdZoom z =>
      {| tab_zoom := Some z; tab_rotation := tab_rotation tab;
         tab_pageLayout := tab_pageLayout tab;
         tab_currentPage := tab_currentPage tab;
         tab_scrollPosition := tab_scrollPosition tab |}
  | UpdCurrentPage p =>
      {| tab_zoom := tab_zoom tab; tab_rotation := tab_rotation tab;
         tab_pageLayout := tab_pageLayout tab;
         tab_currentPage := Some p;
         tab_scrollPosition := tab_scrollPosition tab |}
  | UpdScrollPosition y =>
      {| tab_zoom := tab_zoom tab; tab_rotation := tab_rotation tab;
         tab_pageLayout := tab_pageLayout tab;
         tab_currentPage := tab_currentPage tab;
         tab_scrollPosition := Some y |}
  end.

(** ** The state the renderer runs in *)

(** [this.documents] and [this.pageElements]. *)
Record Registries := {
  documents : gmap TabId PDFDocument;
  pageElements : gmap TabId (list PageContainer)
}.

(** [this.viewer], [this.container], the page-number input and the layout
    the browser computes ([getBoundingClientRect]). *)
Record Dom := {
  viewer : list ViewerChild;
  viewer_twoPage : bool;
  scrollTop : Q;
  containerRect : Rect;
  pageRect : nat -> Rect;
  next_node : nat;
  pageNumberInput : option Z;
  scrolledIntoView : list nat
}.

(** [this.app]: tab manager, sidebar and the UI refresh. *)
Record App := {
  tabs : gmap TabId Tab;
  activeTab : option TabId;
  sidebar : list (TabId * Z);
  updateUI_calls : nat
}.

(** A timer armed by [setTimeout]. *)
Record Timer := {
  timer_due : nat;
  timer_tab : TabId
}.

(** What the journal records: the scroll events the listener handled for
    an active tab, and the runs of the current-page detection. *)
Inductive Occurrence :=
| ScrollHandled (time : nat) (tabId : TabId)
| DetectRan (time : nat) (tabId : TabId).

(** [window]: alerts, console, device pixel ratio, clock and timers.
    [scrollTimeout] is the pending timer the listener's variable of that
    name refers to; it is [None] when the variable is still undefined and
    when the timer it names has fired or was cleared.  [strayTimers] are the
    timers that are pending although the variable has been overwritten with
    the identifier of a later one. *)
Record Window := {
  alerts : list string;
  console : list (string * Error);
  devicePixelRatio : option Q;
  clock : nat;
  scrollTimeout : option Timer;
  strayTimers : list Timer;
  journal : list Occurrence
}.

(** [pdfjsLib].  [handles] lists every handle [getDocument] has produced,
    with the tab it was loaded for; [destroyed] the handles on which
    [destroy()] has been called. *)
Record PdfJs := {
  getDocument : Data -> Error + PDFBody;
  next_doc : nat;
  handles : list (TabId * nat);
  destroyed : list nat
}.

Record State := {
  reg : Registries;
  dom : Dom;
  app : App;
  win : Window;
  pdfjs : PdfJs
}.

(** *** Field updates *)

Definition with_reg (f : Registries -> Registries) (s : State) : State :=
  {| reg := f (reg s); dom := dom s; app := app s; win := win s; pdfjs := pdfjs s |}.
Definition with_dom (f : Dom -> Dom) (s : State) : State :=
  {| reg := reg s; dom := f (dom s); app := app s; win := win s; pdfjs := pdfjs s |}.
Definition with_app (f : App -> App) (s : State) : State :=
  {| reg := reg s; dom := dom s; app := f (app s); win := win s; pdfjs := pdfjs s |}.
Definition with_win (f : Window -> Window) (s : State) : State :=
  {| reg := reg s; dom := dom s; app := app s; win := f (win s); pdfjs := pdfjs s |}.
Definition with_pdfjs (f : PdfJs -> PdfJs) (s : State) : State :=
  {| reg := reg s; dom := dom s; app := app s; win := win s; pdfjs := f (pdfjs s) |}.

Definition upd_documents (f : gmap TabId PDFDocument -> gmap TabId PDFDocument)
    (r : Registries) : Registries :=
  {| documents := f (documents r); pageElements := pageElements r |}.
Definition upd_pageElements
    (f : gmap TabId (list PageContainer) -> gmap TabId (list PageContainer))
    (r : Registries) : Registries :=
  {| documents := documents r; pageElements := f (pageElements r) |}.

Definition upd_viewer (f : list ViewerChild -> list ViewerChild) (d : Dom) : Dom :=
  {| viewer := f (viewer d); viewer_twoPage := viewer_twoPage d;
     scrollTop := scrollTop d; containerRect := containerRect d;
     pageRect := pageRect d; next_node := next_node d;
     pageNumberInput := pageNumberInput d;
     scrolledIntoView := scrolledIntoView d |}.
Definition upd_twoPage (b : bool) (d : Dom) : Dom :=
  {| viewer := viewer d; viewer_twoPage := b;
     scrollTop := scrollTop d; containerRect := containerRect d;
     pageRect := pageRect d; next_node := next_node d;
     pageNumberInput := pageNumberInput d;
     scrolledIntoView := scrolledIntoView d |}.
Definition upd_scrollTop (y : Q) (d : Dom) : Dom :=
  {| viewer := viewer d; viewer_twoPage := viewer_twoPage d;
     scrollTop := y; containerRect := containerRect d;
     pageRect := pageRect d; next_node := next_node d;
     pageNumberInput := pageNumberInput d;
     scrolledIntoView := scrolledIntoView d |}.
Definition upd_next_node (n : nat) (d : Dom) : Dom :=
  {| viewer := viewer d; viewer_twoPage := viewer_twoPage d;
     scrollTop := scrollTop d; containerRect := containerRect d;
     pageRect := pageRect d; next_node := n;
     pageNumberInput := pageNumberInput d;
     scrolledIntoView := scrolledIntoView d |}.
Definition upd_pageNumberInput (v : Z) (d : Dom) : Dom :=
  {| viewer := viewer d; viewer_twoPage := viewer_twoPage d;
     scrollTop := scrollTop d; containerRect := containerRect d;
     pageRect := pageRect d; next_node := next_node d;
     pageNumberInput := Some v;
     scrolledIntoView := scrolledIntoView d |}.
Definition upd_scrolledIntoView (n : nat) (d : Dom) : Dom :=
  {| viewer := viewer d; viewer_twoPage := viewer_twoPage d;
     scrollTop := scrollTop d; containerRect := containerRect d;
     pageRect := pageRect d; next_node := next_node d;
     pageNumberInput := pageNumberInput d;
     scrolledIntoView := scrolledIntoView d ++ [n] |}.

Definition upd_tabs (f : gmap TabId Tab -> gmap TabId Tab) (a : App) : App :=
  {| tabs := f (tabs a); activeTab := activeTab a;
     sidebar := sidebar a; updateUI_calls := updateUI_calls a |}.
Definition upd_sidebar (c : TabId * Z) (a : App) : App :=
  {| tabs := tabs a; activeTab := activeTab a;
     sidebar := sidebar a ++ [c]; updateUI_calls := updateUI_calls a |}.
Definition upd_updateUI (a : App) : App :=
  {| tabs := tabs a; activeTab := activeTab a;
     sidebar := sidebar a; updateUI_calls := S (updateUI_calls a) |}.

Definition upd_alerts (m : string) (w : Window) : Window :=
  {| alerts := alerts w ++ [m]; console := console w;
     devicePixelRatio := devicePixelRatio w; clock := clock w;
     scrollTimeout := scrollTimeout w;
     strayTimers := strayTimers w; journal := journal w |}.
Definition upd_console (m : string * Error) (w : Window) : Window :=
  {| alerts := alerts w; console := console w ++ [m];
     devicePixelRatio := devicePixelRatio w; clock := clock w;
     scrollTimeout := scrollTimeout w;
     strayTimers := strayTimers w; journal := journal w |}.
Definition upd_clock (t : nat) (w : Window) : Window :=
  {| alerts := alerts w; console := console w;
     devicePixelRatio := devicePixelRatio w; clock := t;
     scrollTimeout := scrollTimeout w;
     strayTimers := strayTimers w; journal := journal w |}.
Definition upd_scrollTimeout (t : option Timer) (w : Window) : Window :=
  {| alerts := alerts w; console := console w;
     devicePixelRatio := devicePixelRatio w; clock := clock w;
     scrollTimeout := t;
     strayTimers := strayTimers w; journal := journal w |}.
Definition upd_strayTimers (l : list Timer) (w : Window) : Window :=
  {| alerts := alerts w; console := console w;
     devicePixelRatio := devicePixelRatio w; clock := clock w;
     scrollTimeout := scrollTimeout w;
     strayTimers := l; journal := journal w |}.
Definition upd_journal (o : Occurrence) (w : Window) : Window :=
  {| alerts := alerts w; console := console w;
     devicePixelRatio := devicePixelRatio w; clock := clock w;
     scrollTimeout := scrollTimeout w;
     strayTimers := strayTimers w; journal := journal w ++ [o] |}.

Definition upd_new_handle (tabId : TabId) (p : PdfJs) : PdfJs :=
  {| getDocument := getDocument p;
     next_doc := S (next_doc p);
     handles := handles p ++ [(tabId, next_doc p)];
     destroyed := destroyed p |}.
Definition upd_destroyed (d : nat) (p : PdfJs) : PdfJs :=
  {| getDocument := getDocument p;
     next_doc := next_doc p; handles := handles p;
     destroyed := destroyed p ++ [d] |}.

(** ** Asynchronous programs

    A method body is a tree of state reads, state writes and [Await]
    nodes.  An exception is [Throw]; it leaves the state as the statements
    before it made it. *)

Inductive Async (A : Type) : Type :=
| Ret (a : A)
| Throw (e : Error)
| Get (k : State -> Async A)
| Put (s : State) (k : Async A)
| Await (k : Async A).

Arguments Ret {A} a.
Arguments Throw {A} e.
Arguments Get {A} k.
Arguments Put {A} s k.
Arguments Await {A} k.

Fixpoint bind {A B} (m : Async A) (f : A -> Async B) : Async B :=
  match m with
  | Ret a => f a
  | Throw e => Throw e
  | Get k => Get (fun s => bind (k s) f)
  | Put s k => Put s (bind k f)
  | Await k => Await (bind k f)
  end.

(** [try { m } catch (e) { h e }] *)
Fixpoint try_catch {A} (m : Async A) (h : Error -> Async A) : Async A :=
  match m with
  | Ret a => Ret a
  | Throw e => h e
  | Get k => Get (fun s => try_catch (k s) h)
  | Put s k => Put s (try_catch k h)
  | Await k => Await (try_catch k h)
  end.

Declare Scope async_scope.
Delimit Scope async_scope with async.
Notation "x <- m ;; k" := (bind m (fun x => k))
  (at level 63, m at next level, right associativity) : async_scope.
Notation "m ;;; k" := (bind m (fun _ => k))
  (at level 63, right associativity) : async_scope.
Local Open Scope async_scope.

Definition gets {A} (f : State -> A) : Async A := Get (fun s => Ret (f s)).
Definition modify (f : State -> State) : Async unit := Get (fun s => Put (f s) (Ret tt)).

(** [await p] for a library promise whose outcome is [r]. *)
Definition await {A} (r : Error + A) : Async A :=
  Await (match r with inl e => Throw e | inr a => Ret a end).

Definition await_unit (r : option Error) : Async unit :=
  Await (match r with Some e => Throw e | None => Ret tt end).

(** [await m] for a call [m] of one of the renderer's own async methods. *)
Definition await_call {A} (m : Async A) : Async A :=
  a <- m ;; Await (Ret a).

(** *** Running a program

    [run] runs a program to its end with nothing else scheduled at its
    awaits; [run_among env] runs it while the handlers of [env] are
    dispatched, one at each await, until [env] is used up, and returns the
    handlers that are left with the final state and the outcome. *)

Fixpoint run {A} (m : Async A) (s : State) : State * (Error + A) :=
  match m with
  | Ret a => (s, inr a)
  | Throw e => (s, inl e)
  | Get k => run (k s) s
  | Put s' k => run k s'
  | Await k => run k s
  end.

Fixpoint run_among {A} (env : list (State -> State)) (m : Async A) (s : State)
    : list (State -> State) * State * (Error + A) :=
  match m with
  | Ret a => (env, s, inr a)
  | Throw e => (env, s, inl e)
  | Get k => run_among env (k s) s
  | Put s' k => run_among env k s'
  | Await k =>
      match env with
      | [] => run_among [] k s
      | h :: env' => run_among env' k (h s)
      end
  end.

(** The outcome of calling an async function without awaiting it: it has
    run up to its first await. *)
Inductive Started (A : Type) :=
| Settled (r : Error + A)
| Pending (k : Async A).
Arguments Settled {A} r.
Arguments Pending {A} k.

Fixpoint start {A} (m : Async A) (s : State) : State * Started A :=
  match m with
  | Ret a => (s, Settled (inr a))
  | Throw e => (s, Settled (inl e))
  | Get k => start (k s) s
  | Put s' k => start k s'
  | Await k => (s, Pending k)
  end.

Definition exec {A} (m : Async A) (s : State) : State := fst (run m s).

Definition exec_among {A} (env : list (State -> State)) (m : Async A) (s : State) : State :=
  snd (fst (run_among env m s)).

(** ** Collaborators *)

(** Modelled from the spec: [app.tabManager.getTab] is the tab lookup of
    the external tab manager. *)
Definition getTab (tabId : TabId) : Async (option Tab) :=
  gets (fun s => tabs (app s) !! tabId).

(** Modelled from the spec: [app.tabManager.updateTab] is the tab update of
    the external tab manager; it overwrites the given property of the
    tab's entry and does nothing for an unknown tab. *)
Definition updateTab (tabId : TabId) (u : TabUpdate) : Async unit :=
  modify (with_app (upd_tabs (alter (apply_update u) tabId))).

(** Modelled from the spec: [app.tabManager.getActiveTab], reduced to the
    identifier of the active tab, if there is one. *)
Definition getActiveTab : Async (option TabId) :=
  gets (fun s => activeTab (app s)).

(** Modelled from the spec: [app.sidebar.updateCurrentPage], the
    current-page sidebar update. *)
Definition sidebar_updateCurrentPage (tabId : TabId) (pageNum : Z) : Async unit :=
  modify (with_app (upd_sidebar (tabId, pageNum))).

(** Modelled from the spec: [app.updateUI], the global UI refresh trigger. *)
Definition updateUI : Async unit := modify (with_app upd_updateUI).

Definition console_error (msg : string) (e : Error) : Async unit :=
  modify (with_win (upd_console (msg, e))).

Definition alert (msg : string) : Async unit :=
  modify (with_win (upd_alerts msg)).

(** [document.createElement('div')] for a page container: a new element. *)
Definition createElement : Async nat :=
  n <- gets (fun s => next_node (dom s)) ;;
  modify (with_dom (upd_next_node (S n))) ;;;
  Ret n.

Definition viewer_set_innerHTML (html : list ViewerChild) : Async unit :=
  modify (with_dom (upd_viewer (fun _ => html))).

Definition viewer_appendChild (pc : PageContainer) : Async unit :=
  modify (with_dom (upd_viewer (fun v => (v ++ [Page pc])%list))).

Definition documents_set (tabId : TabId) (doc : PDFDocument) : Async unit :=
  modify (with_reg (upd_documents (insert tabId doc))).

Definition pageElements_set (tabId : TabId) (pages : list PageContainer) : Async unit :=
  modify (with_reg (upd_pageElements (insert tabId pages))).

(** [doc.destroy()] *)
Definition destroy (doc : PDFDocument) : Async unit :=
  modify (with_pdfjs (upd_destroyed (doc_id doc))).

(** [await pdfjsLib.getDocument({ data }).promise], called for [tabId]:
    on success the library hands out a new handle. *)
Definition await_getDocument (data : Data) (tabId : TabId) : Async PDFDocument :=
  body <- Get (fun s => await (getDocument (pdfjs s) data)) ;;
  n <- gets (fun s => next_doc (pdfjs s)) ;;
  modify (with_pdfjs (upd_new_handle tabId)) ;;;
  Ret {| doc_id := n; doc_body := body |}.

(** ** The renderer *)

(** [new PDFRenderer(app)]: both registries start empty. *)
Definition constructor (a : App) (d : Dom) (w : Window) (p : PdfJs) : State :=
  {| reg := {| documents := ∅; pageElements := ∅ |};
     dom := d; app := a; win := w; pdfjs := p |}.

(** The elements lines 80 to 142 build for one page. *)
Definition page_canvas (viewport : Viewport) (dpr : Q) : Canvas :=
  {| canvas_width := canvas_dimension 300 (Qfloor (js_mul (vp_width viewport) dpr));
     canvas_height := canvas_dimension 150 (Qfloor (js_mul (vp_height viewport) dpr));
     canvas_style_width := vp_width viewport;
     canvas_style_height := vp_height viewport;
     canvas_transform := dpr;
     canvas_painted := viewport |}.

Definition page_textLayerDiv (viewport : Viewport) (rendered : bool) : TextLayer :=
  {| text_style_width := vp_width viewport;
     text_style_height := vp_height viewport;
     text_rendered := rendered |}.

Definition page_annotationLayerDiv (viewport : Viewport) (pageNum : nat) (tabId : TabId)
    : AnnotationLayer :=
  {| ann_style_width := vp_width viewport;
     ann_style_height := vp_height viewport;
     ann_page := pageNum;
     ann_tab := tabId |}.

Definition page_div (node pageNum : nat) (viewport : Viewport) (children : list Node)
    : PageContainer :=
  {| pc_node := node;
     pc_page := pageNum;
     pc_style_width := vp_width viewport;
     pc_style_height := vp_height viewport;
     pc_children := children |}.

(** Both branches of lines 111 to 127 await one text-layer rendering, whose
    outcome is [page_textLayer]. *)
Definition createPageContainer (doc : PDFDocument) (pageNum : nat) (tabId : TabId)
    : Async PageContainer :=
  tab <- getTab tabId ;;
  page <- await (getPage doc pageNum) ;;
  match tab with
  | None => Throw "TypeError: Cannot read properties of undefined (reading 'zoom')"
  | Some tab =>
      let scale := or_default_Q (tab_zoom tab) 1 in
      let rotation := or_default_Z (tab_rotation tab) 0 in
      dpr <- gets (fun s => or_default_Q (devicePixelRatio (win s)) 1) ;;
      let viewport := getViewport page scale rotation in
      node <- createElement ;;
      let canvas := page_canvas viewport dpr in
      await_unit (page_render page) ;;;
      rendered <-
        try_catch
          (await_unit (page_getTextContent page) ;;;
           await_unit (page_textLayer page) ;;;
           Ret true)
          (fun e => console_error "Error rendering text layer:" e ;;; Ret false) ;;
      let textLayerDiv := page_textLayerDiv viewport rendered in
      let annotationLayerDiv := page_annotationLayerDiv viewport pageNum tabId in
      Ret (page_div node pageNum viewport
             [CanvasNode canvas; TextLayerNode textLayerDiv;
              AnnotationLayerNode annotationLayerDiv])
  end.

(** The loop of lines 59 to 63, over the page numbers still to render. *)
Fixpoint render_pages (doc : PDFDocument) (tabId : TabId)
    (pageNums : list nat) (pages : list PageContainer) : Async (list PageContainer) :=
  match pageNums with
  | [] => Ret pages
  | pageNum :: rest =>
      pageContainer <- await_call (createPageContainer doc pageNum tabId) ;;
      viewer_appendChild pageContainer ;;;
      render_pages doc tabId rest (pages ++ [pageContainer])
  end.

Definition renderDocument (tabId : TabId) : Async unit :=
  doc <- gets (fun s => documents (reg s) !! tabId) ;;
  match doc with
  | None => Ret tt
  | Some doc =>
      tab <- getTab tabId ;;
      match tab with
      | None => Ret tt
      | Some tab =>
          viewer_set_innerHTML [] ;;;
          modify (with_dom (upd_twoPage (String.eqb (tab_pageLayout tab) "two-page"))) ;;;
          pages <- render_pages doc tabId (seq 1 (numPages doc)) [] ;;
          pageElements_set tabId pages
      end
  end.

Definition loadDocument (data : Data) (tabId : TabId) : Async PDFDocument :=
  try_catch
    (pdfDoc <- await_getDocument data tabId ;;
     documents_set tabId pdfDoc ;;;
     pageElements_set tabId [] ;;;
     updateUI ;;;
     await_call (renderDocument tabId) ;;;
     Ret pdfDoc)
    (fun error =>
       console_error "Error loading PDF:" error ;;;
       alert ("Error loading PDF: " ++ error) ;;;
       Throw error).

Definition closeDocument (tabId : TabId) : Async unit :=
  doc <- gets (fun s => documents (reg s) !! tabId) ;;
  match doc with
  | Some doc => destroy doc
  | None => Ret tt
  end ;;;
  modify (with_reg (upd_documents (delete tabId))) ;;;
  modify (with_reg (upd_pageElements (delete tabId))).

(** [getDocument(tabId)], named apart from the library's [getDocument]. *)
Definition getDocument_of (tabId : TabId) : Async (option PDFDocument) :=
  gets (fun s => documents (reg s) !! tabId).

(** [tab.zoom = zoom], a write to the tab object the tab manager holds. *)
Definition assign_zoom (tabId : TabId) (zoom : Q) : Async unit :=
  modify (with_app (upd_tabs (alter (apply_update (UpdZoom zoom)) tabId))).

Definition setZoom (tabId : TabId) (zoom : Q) : Async unit :=
  tab <- getTab tabId ;;
  match tab with
  | None => Ret tt
  | Some _ =>
      assign_zoom tabId zoom ;;;
      await_call (renderDocument tabId)
  end.

Definition goToPage (tabId : TabId) (pageNum : Z) : Async unit :=
  pages <- gets (fun s => pageElements (reg s) !! tabId) ;;
  match pages with
  | None => Ret tt
  | Some pages =>
      if ((pageNum <? 1) || (Z.of_nat (length pages) <? pageNum))%Z then Ret tt
      else
        match pages !! Z.to_nat (pageNum - 1) with
        | None => Ret tt
        | Some pageContainer =>
            modify (with_dom (upd_scrolledIntoView (pc_node pageContainer))) ;;;
            updateTab tabId (UpdCurrentPage pageNum) ;;;
            modify (with_dom (upd_pageNumberInput pageNum)) ;;;
            sidebar_updateCurrentPage tabId pageNum
        end
  end.

Definition setRotation (tabId : TabId) (rotation : Z) : Async unit :=
  tab <- getTab tabId ;;
  match tab with
  | None => Ret tt
  | Some tab =>
      let currentPage := or_default_Z (tab_currentPage tab) 1 in
      await_call (renderDocument tabId) ;;;
      await_call (goToPage tabId currentPage)
  end.

Definition setPageLayout (tabId : TabId) (layout : string) : Async unit :=
  await_call (renderDocument tabId).

(** Lines 156 to 159 of [switchToTab]. *)
Definition restore_scroll (tabId : TabId) (s : State) : State :=
  match tabs (app s) !! tabId with
  | Some tab =>
      match tab_scrollPosition tab with
      | Some y => if Qeq_bool y 0 then s else with_dom (upd_scrollTop y) s
      | None => s
      end
  | None => s
  end.

(** [switchToTab] is a synchronous method: it calls [renderDocument]
    without awaiting it, so the render has only run up to its first await
    when the scroll position is restored and the method returns.  The
    second component is the rest of the render, when there is one. *)
Definition switchToTab (tabId : TabId) (s : State) : State * option (Async unit) :=
  match documents (reg s) !! tabId with
  | None => (with_dom (upd_viewer (fun _ => [EmptyState])) s, None)
  | Some _ =>
      let (s1, r) := start (renderDocument tabId) s in
      (restore_scroll tabId s1, match r with Pending k => Some k | Settled _ => None end)
  end.

(** The state once the render [switchToTab] started has run to its end. *)
Definition switchToTab_settled (tabId : TabId) (s : State) : State :=
  let (s2, k) := switchToTab tabId s in
  match k with
  | Some k => exec k s2
  | None => s2
  end.

(** *** Current-page detection *)

Definition containerCenter (containerRect : Rect) : Q :=
  js_add (rect_top containerRect) (js_div (rect_height containerRect) 2%Q).

Definition contains_center (pageRect : Rect) (center : Q) : bool :=
  Qle_bool (rect_top pageRect) center && Qle_bool center (rect_bottom pageRect).

(** [tab.currentPage !== pageNum] *)
Definition currentPage_differs (tab : Tab) (pageNum : Z) : bool :=
  match tab_currentPage tab with
  | Some p => negb (Z.eqb p pageNum)
  | None => true
  end.

(** The loop of lines 255 to 269, from index [i] on. *)
Fixpoint detect_loop (tabId : TabId) (center : Q) (pages : list PageContainer) (i : nat)
    : Async unit :=
  match pages with
  | [] => Ret tt
  | page :: rest =>
      rect <- gets (fun s => pageRect (dom s) (pc_node page)) ;;
      if contains_center rect center then
        let pageNum := (Z.of_nat i + 1)%Z in
        tab <- getTab tabId ;;
        match tab with
        | Some tab =>
            if currentPage_differs tab pageNum then
              updateTab tabId (UpdCurrentPage pageNum) ;;;
              modify (with_dom (upd_pageNumberInput pageNum)) ;;;
              sidebar_updateCurrentPage tabId pageNum
            else Ret tt
        | None => Ret tt
        end
      else detect_loop tabId center rest (S i)
  end.

Definition detectCurrentPage (tabId : TabId) : Async unit :=
  pages <- gets (fun s => pageElements (reg s) !! tabId) ;;
  match pages with
  | None => Ret tt
  | Some pages =>
      center <- gets (fun s => containerCenter (containerRect (dom s))) ;;
      detect_loop tabId center pages 0
  end.

(** *** The scroll listener and the event loop around it *)

(** [clearTimeout(scrollTimeout)]: the timer the variable refers to, if it
    is still pending, is cancelled. *)
Definition clearTimeout : Async unit :=
  modify (with_win (upd_scrollTimeout None)).

(** [scrollTimeout = setTimeout(callback, 100)], with [timer] the new
    timer: a pending timer the variable referred to until now stays
    pending. *)
Definition arm (timer : Timer) (w : Window) : Window :=
  upd_scrollTimeout (Some timer)
    (match scrollTimeout w with
     | Some old => upd_strayTimers (strayTimers w ++ [old]) w
     | None => w
     end).

Definition setTimeout (timer : Timer) : Async unit :=
  modify (with_win (arm timer)).

(** The listener [setupScrollListener] installs on the container. *)
Definition on_scroll : Async unit :=
  activeTab <- getActiveTab ;;
  match activeTab with
  | None => Ret tt
  | Some id =>
      y <- gets (fun s => scrollTop (dom s)) ;;
      updateTab id (UpdScrollPosition y) ;;;
      now <- gets (fun s => clock (win s)) ;;
      modify (with_win (upd_journal (ScrollHandled now id))) ;;;
      clearTimeout ;;;
      setTimeout {| timer_due := now + 100; timer_tab := id |}
  end.

(** The callback the listener passes to [setTimeout]. *)
Definition on_timeout (tabId : TabId) : Async unit :=
  now <- gets (fun s => clock (win s)) ;;
  modify (with_win (upd_journal (DetectRan now tabId))) ;;;
  detectCurrentPage tabId.

(** ** Operations and events *)

(** The renderer's operations, each run to its end before the next one
    starts. *)
Inductive Operation :=
| LoadDocument (data : Data) (tabId : TabId)
| RenderDocument (tabId : TabId)
| CloseDocument (tabId : TabId)
| SwitchToTab (tabId : TabId)
| SetZoom (tabId : TabId) (zoom : Q)
| SetRotation (tabId : TabId) (rotation : Z)
| SetPageLayout (tabId : TabId) (layout : string)
| GoToPage (tabId : TabId) (pageNum : Z).

Definition perform (op : Operation) (s : State) : State :=
  match op with
  | LoadDocument data tabId => exec (loadDocument data tabId) s
  | RenderDocument tabId => exec (renderDocument tabId) s
  | CloseDocument tabId => exec (closeDocument tabId) s
  | SwitchToTab tabId => switchToTab_settled tabId s
  | SetZoom tabId zoom => exec (setZoom tabId zoom) s
  | SetRotation tabId rotation => exec (setRotation tabId rotation) s
  | SetPageLayout tabId layout => exec (setPageLayout tabId layout) s
  | GoToPage tabId pageNum => exec (goToPage tabId pageNum) s
  end.

Definition perform_all (ops : list Operation) (s : State) : State :=
  fold_left (fun s op => perform op s) ops s.

(** The state [closeDocument] leaves. *)
Definition closed (tabId : TabId) (s : State) : State :=
  with_reg (upd_pageElements (delete tabId))
    (with_reg (upd_documents (delete tabId))
       (match documents (reg s) !! tabId with
        | Some doc => with_pdfjs (upd_destroyed (doc_id doc)) s
        | None => s
        end)).

(** The events of the page: the user scrolls the container, time passes,
    a pending timer fires, the shell activates another tab or calls the
    renderer. *)
Inductive Event :=
| UserScrolls (y : Q)
| TimePasses (ms : nat)
| TimerFires
| StrayTimerFires (i : nat)
| ShellActivates (tabId : option TabId)
| Calls (op : Operation).

Definition set_activeTab (t : option TabId) (a : App) : App :=
  {| tabs := tabs a; activeTab := t;
     sidebar := sidebar a; updateUI_calls := updateUI_calls a |}.

(** One turn of the event loop.  [TimerFires] is the firing of the timer
    the listener's variable refers to, [StrayTimerFires i] that of the
    [i]-th stray timer.  A timer fires no earlier than it is due, and only
    once. *)
Definition dispatch (e : Event) (s : State) : State :=
  match e with
  | UserScrolls y => exec on_scroll (with_dom (upd_scrollTop y) s)
  | TimePasses ms => with_win (upd_clock (clock (win s) + ms)) s
  | TimerFires =>
      match scrollTimeout (win s) with
      | Some t =>
          if Nat.leb (timer_due t) (clock (win s))
          then exec (on_timeout (timer_tab t)) (with_win (upd_scrollTimeout None) s)
          else s
      | None => s
      end
  | StrayTimerFires i =>
      match strayTimers (win s) !! i with
      | Some t =>
          if Nat.leb (timer_due t) (clock (win s))
          then exec (on_timeout (timer_tab t))
                 (with_win (upd_strayTimers (delete i (strayTimers (win s)))) s)
          else s
      | None => s
      end
  | ShellActivates t => with_app (set_activeTab t) s
  | Calls op => perform op s
  end.

Definition event_loop (events : list Event) (s : State) : State :=
  fold_left (fun s e => dispatch e s) events s.

(** ** Vocabulary of the statements *)

(** The error the [try] block of lines 108 to 130 catches, if any. *)
Definition text_error (page : PDFPage) : option Error :=
  match page_getTextContent page with
  | Some e => Some e
  | None => page_textLayer page
  end.

(** The viewport a page is rendered with for a tab. *)
Definition tab_viewport (tab : Tab) (page : PDFPage) : Viewport :=
  getViewport page (or_default_Q (tab_zoom tab) 1) (or_default_Z (tab_rotation tab) 0).

(** The container [createPageContainer] returns for a page that renders,
    as element [node], under device pixel ratio [ratio]. *)
Definition rendered_page (ratio : option Q) (node : nat) (tab : Tab) (page : PDFPage)
    (pageNum : nat) (tabId : TabId) : PageContainer :=
  let viewport := tab_viewport tab page in
  let dpr := or_default_Q ratio 1 in
  page_div node pageNum viewport
    [CanvasNode (page_canvas viewport dpr);
     TextLayerNode (page_textLayerDiv viewport
                      (match text_error page with None => true | Some _ => false end));
     AnnotationLayerNode (page_annotationLayerDiv viewport pageNum tabId)].

(** The state [createPageContainer] leaves for a page that renders. *)
Definition after_page (page : PDFPage) (s : State) : State :=
  let s1 := with_dom (upd_next_node (S (next_node (dom s)))) s in
  match text_error page with
  | Some e => with_win (upd_console ("Error rendering text layer:", e)) s1
  | None => s1
  end.

(** What a render may change besides the page-element registry: the
    viewer's children and layout class, the element counter and the
    console. *)
Record render_frame (s s' : State) : Prop := {
  frame_documents : documents (reg s') = documents (reg s);
  frame_app : app s' = app s;
  frame_pdfjs : pdfjs s' = pdfjs s;
  frame_alerts : alerts (win s') = alerts (win s);
  frame_dpr : devicePixelRatio (win s') = devicePixelRatio (win s);
  frame_clock : clock (win s') = clock (win s);
  frame_timer : scrollTimeout (win s') = scrollTimeout (win s);
  frame_stray : strayTimers (win s') = strayTimers (win s);
  frame_journal : journal (win s') = journal (win s);
  frame_scrollTop : scrollTop (dom s') = scrollTop (dom s);
  frame_containerRect : containerRect (dom s') = containerRect (dom s);
  frame_pageRect : pageRect (dom s') = pageRect (dom s);
  frame_input : pageNumberInput (dom s') = pageNumberInput (dom s);
  frame_scrolled : scrolledIntoView (dom s') = scrolledIntoView (dom s)
}.

(** [rendered_pages ratio tab doc tabId node pageNums pages]: [pages] are
    the containers of the pages [pageNums] of [doc], each rendered, created
    one after the other from element [node] on. *)
Inductive rendered_pages (ratio : option Q) (tab : Tab) (doc : PDFDocument) (tabId : TabId)
    : nat -> list nat -> list PageContainer -> Prop :=
| rendered_nil node : rendered_pages ratio tab doc tabId node [] []
| rendered_cons node pageNum rest page pages :
    getPage doc pageNum = inr page ->
    page_render page = None ->
    rendered_pages ratio tab doc tabId (S node) rest pages ->
    rendered_pages ratio tab doc tabId node (pageNum :: rest)
      (rendered_page ratio node tab page pageNum tabId :: pages).

(** Lines 48 to 57: the viewer is emptied and its layout class set. *)
Definition cleared (tab : Tab) (s : State) : State :=
  with_dom (upd_twoPage (String.eqb (tab_pageLayout tab) "two-page"))
    (with_dom (upd_viewer (fun _ => [])) s).

(** The handle [getDocument] hands out next, for a document [body]. *)
Definition new_handle (s : State) (body : PDFBody) : PDFDocument :=
  {| doc_id := next_doc (pdfjs s); doc_body := body |}.

(** Lines 25 to 29 of [loadDocument], for the document [body]. *)
Definition registered (tabId : TabId) (body : PDFBody) (s : State) : State :=
  with_app upd_updateUI
    (with_reg (upd_pageElements (insert tabId []))
       (with_reg (upd_documents (insert tabId (new_handle s body)))
          (with_pdfjs (upd_new_handle tabId) s))).

(** The [catch] block of [loadDocument]. *)
Definition load_failed (e : Error) (s : State) : State :=
  with_win (upd_alerts ("Error loading PDF: " ++ e))
    (with_win (upd_console ("Error loading PDF:", e)) s).

(** Every page of a document is fetched and rasterised without error. *)
Definition renders (body : PDFBody) : Prop :=
  forall n, 1 <= n <= body_numPages body ->
    exists page, body_getPage body n = inr page /\ page_render page = None.

(** The live handles of a tab: those the library produced for it and on
    which [destroy()] has not been called. *)
Definition live_handles (tabId : TabId) (s : State) : list nat :=
  snd <$> List.filter
            (fun h => Nat.eqb (fst h) tabId &&
                      negb (existsb (Nat.eqb (snd h)) (destroyed (pdfjs s))))
            (handles (pdfjs s)).

(** [pageNum] is the number of one of the tab's registered page containers. *)
Definition page_in_range (s : State) (tabId : TabId) (pageNum : Z) : Prop :=
  exists pages,
    pageElements (reg s) !! tabId = Some pages /\
    (1 <= pageNum <= Z.of_nat (length pages))%Z.

(** The tabs with a page-element entry are the tabs with a document. *)
Definition registries_agree (s : State) : Prop :=
  forall tabId,
    is_Some (pageElements (reg s) !! tabId) <-> is_Some (documents (reg s) !! tabId).

(** The rotation the tab manager stores for each tab. *)
Definition stored_rotation (s : State) (tabId : TabId) : option (option Z) :=
  tab_rotation <$> tabs (app s) !! tabId.

(** The rotations at which the registered pages of a tab were painted. *)
Definition painted_rotations (s : State) (tabId : TabId) : list Z :=
  match pageElements (reg s) !! tabId with
  | Some pages =>
      flat_map
        (fun pc =>
           omap (fun n => match n with
                          | CanvasNode c => Some (vp_rotation (canvas_painted c))
                          | _ => None
                          end) (pc_children pc))
        pages
  | None => []
  end.

(** [steady s s']: the registries, the shell, the library, the pending
    timers and the journal are in [s'] as they are in [s]. *)
Definition steady (s s' : State) : Prop :=
  reg s' = reg s /\ app s' = app s /\ pdfjs s' = pdfjs s /\
  scrollTimeout (win s') = scrollTimeout (win s) /\
  strayTimers (win s') = strayTimers (win s) /\
  journal (win s') = journal (win s).

(** A handler that leaves all of these alone. *)
Definition quiet (h : State -> State) : Prop := forall s, steady s (h s).

(** [keeps m s]: started in [s], and with quiet handlers dispatched at its
    awaits, the program [m] only ever writes steady states. *)
Fixpoint keeps {A} (m : Async A) (s : State) : Prop :=
  match m with
  | Ret _ => True
  | Throw _ => True
  | Get k => keeps (k s) s
  | Put s' k => steady s s' /\ keeps k s'
  | Await k => forall s', steady s s' -> keeps k s'
  end.


(** The centre line of the container and the rectangle of a page, as the
    browser lays them out in [s]. *)
Definition center_of (s : State) : Q := containerCenter (containerRect (dom s)).

(** Lines 263 to 265: the tab's current page, the page-number input and
    the sidebar are set to [pageNum]. *)
Definition set_current_page (tabId : TabId) (pageNum : Z) (s : State) : State :=
  with_app (upd_sidebar (tabId, pageNum))
    (with_dom (upd_pageNumberInput pageNum)
       (with_app (upd_tabs (alter (apply_update (UpdCurrentPage pageNum)) tabId)) s)).

(** The state the detection leaves when it finds page [pageNum]. *)
Definition page_detected (tabId : TabId) (pageNum : Z) (s : State) : State :=
  match tabs (app s) !! tabId with
  | Some tab =>
      if decide (tab_currentPage tab = Some pageNum) then s
      else set_current_page tabId pageNum s
  | None => s
  end.

(** The state the listener leaves when the user has scrolled to [y]: with
    no active tab only the container has moved.  With an active tab its
    scroll position is saved, the journal has the event, and the one
    pending timer the variable [scrollTimeout] refers to is the new one, due
    in 100 ms; the timer it referred to before is pending no more, and no
    page has been looked for. *)
Definition scroll_handled (y : Q) (s : State) : State :=
  match activeTab (app s) with
  | None => with_dom (upd_scrollTop y) s
  | Some id =>
      {| reg := reg s;
         dom := upd_scrollTop y (dom s);
         app := upd_tabs (alter (apply_update (UpdScrollPosition y)) id) (app s);
         win := {| alerts := alerts (win s); console := console (win s);
                   devicePixelRatio := devicePixelRatio (win s);
                   clock := clock (win s);
                   scrollTimeout :=
                     Some {| timer_due := clock (win s) + 100; timer_tab := id |};
                   strayTimers := strayTimers (win s);
                   journal := (journal (win s) ++ [ScrollHandled (clock (win s)) id])%list |};
         pdfjs := pdfjs s |}
  end.

(** The state the firing of [timer] leaves: the timer is pending no more,
    the journal has the run, and the detection has run for the tab the
    timer was armed for. *)
Definition timer_fired (timer : Timer) (s : State) : State :=
  exec (detectCurrentPage (timer_tab timer))
    (with_win (upd_journal (DetectRan (clock (win s)) (timer_tab timer)))
       (with_win (upd_scrollTimeout None) s)).

(** The firing of a timer, of the one the variable refers to or of a stray
    one. *)
Definition is_firing (e : Event) : Prop :=
  e = TimerFires \/ exists i, e = StrayTimerFires i.

(** The timers and the journal are in [s'] as they are in [s]. *)
Definition same_timers (s s' : State) : Prop :=
  scrollTimeout (win s') = scrollTimeout (win s) /\
  strayTimers (win s') = strayTimers (win s) /\
  journal (win s') = journal (win s).



(** ** Sample documents and states *)

(** A US Letter page (612 by 792 points), turned on its side by a quarter
    turn. *)
Definition letter_size (scale : Q) (rotation : Z) : Q * Q :=
  if Z.even (rotation / 90) then (js_mul 612 scale, js_mul 792 scale)
  else (js_mul 792 scale, js_mul 612 scale).

Definition good_page : PDFPage :=
  {| page_size := letter_size; page_render := None;
     page_getTextContent := None; page_textLayer := None |}.

(** A page that rasterises but whose text layer cannot be rendered. *)
Definition untexted_page : PDFPage :=
  {| page_size := letter_size; page_render := None;
     page_getTextContent := None; page_textLayer := Some "Invalid font data" |}.

(** A page whose rasterisation fails. *)
Definition broken_page : PDFPage :=
  {| page_size := letter_size; page_render := Some "Bad content stream";
     page_getTextContent := None; page_textLayer := None |}.

Definition body_of (pages : list PDFPage) : PDFBody :=
  {| body_numPages := length pages;
     body_getPage := fun n =>
       match n with
       | O => inl "Invalid page request."
       | S i =>
           match pages !! i with
           | Some page => inr page
           | None => inl "Invalid page request."
           end
       end |}.

(** A library that reads ["%"...] as a sound two-page document, ["!"...] as
    a two-page document whose second page is damaged, ["?"...] as a
    two-page document whose first page has no usable text, and rejects
    everything else. *)
Definition sample_getDocument (data : Data) : Error + PDFBody :=
  match data with
  | Byte.x25 :: _ => inr (body_of [good_page; good_page])
  | Byte.x21 :: _ => inr (body_of [good_page; broken_page])
  | Byte.x3f :: _ => inr (body_of [untexted_page; good_page])
  | _ => inl "Invalid PDF structure."
  end.

Definition sample_tab : Tab :=
  {| tab_zoom := Some (3 # 2); tab_rotation := None;
     tab_pageLayout := "single"; tab_currentPage := Some 1%Z;
     tab_scrollPosition := None |}.

Definition sample_rect (top height : Q) : Rect :=
  {| rect_top := top; rect_bottom := (top + height)%Q; rect_height := height |}.

(** Pages of 1188 pixels stacked from the top of the document, scrolled
    by 1500 pixels, in a container 800 pixels high. *)
Definition sample_dom : Dom :=
  {| viewer := [];
     viewer_twoPage := false;
     scrollTop := 1500%Q;
     containerRect := sample_rect 0%Q 800%Q;
     pageRect := fun node => sample_rect (inject_Z (Z.of_nat node) * 1188 - 1500)%Q 1188%Q;
     next_node := 0;
     pageNumberInput := None;
     scrolledIntoView := [] |}.

Definition sample_app : App :=
  {| tabs := {[ 7 := sample_tab ]}; activeTab := Some 7;
     sidebar := []; updateUI_calls := 0 |}.

Definition sample_window : Window :=
  {| alerts := []; console := []; devicePixelRatio := Some 2%Q;
     clock := 0; scrollTimeout := None; strayTimers := []; journal := [] |}.

Definition sample_pdfjs : PdfJs :=
  {| getDocument := sample_getDocument; next_doc := 0;
     handles := []; destroyed := [] |}.

Definition fresh_state : State :=
  constructor sample_app sample_dom sample_window sample_pdfjs.

(** The same with tab 7 at zoom [zoom] on a display of ratio [dpr]. *)
Definition scaled_state (zoom dpr : Q) : State :=
  constructor
    {| tabs := {[ 7 := apply_update (UpdZoom zoom) sample_tab ]}; activeTab := Some 7;
       sidebar := []; updateUI_calls := 0 |}
    sample_dom
    {| alerts := []; console := []; devicePixelRatio := Some dpr;
       clock := 0; scrollTimeout := None; strayTimers := []; journal := [] |}
    sample_pdfjs.

(** Tab 7 after loading a sound document, a damaged one, one with an
    unusable text layer. *)
Definition loaded_state : State := exec (loadDocument [Byte.x25] 7) fresh_state.
Definition damaged_state : State := exec (loadDocument [Byte.x21] 7) fresh_state.
Definition untexted_state : State := exec (loadDocument [Byte.x3f] 7) fresh_state.

(** Tab 7 is loaded, the user scrolls twice within 60 ms, and the timer
    fires 100 ms after the second scroll. *)
Definition sample_events : list Event :=
  [Calls (LoadDocument [Byte.x25] 7);
   UserScrolls 1400; TimePasses 60; UserScrolls 1500; TimePasses 100; TimerFires].

(** ** Further vocabulary *)

(** The scales at which the registered pages of a tab were painted. *)
Definition painted_scales (s : State) (tabId : TabId) : list Q :=
  match pageElements (reg s) !! tabId with
  | Some pages =>
      flat_map
        (fun pc =>
           omap (fun n => match n with
                          | CanvasNode c => Some (vp_scale (canvas_painted c))
                          | _ => None
                          end) (pc_children pc))
        pages
  | None => []
  end.

(** The scale pages are rendered at for a stored zoom [zoom]. *)
Definition effective_scale (zoom : Q) : Q := if Qeq_bool zoom 0 then 1%Q else zoom.



(** The library's handle counter is ahead of every handle it has
    destroyed, every registered handle was produced and is not destroyed,
    and no handle is registered for two tabs. *)
Definition handles_sound (s : State) : Prop :=
  (forall d, d ∈ destroyed (pdfjs s) -> d < next_doc (pdfjs s)) /\
  (forall tabId doc,
     documents (reg s) !! tabId = Some doc ->
     doc_id doc < next_doc (pdfjs s) /\ doc_id doc ∉ destroyed (pdfjs s)) /\
  (forall t1 t2 doc1 doc2,
     documents (reg s) !! t1 = Some doc1 ->
     documents (reg s) !! t2 = Some doc2 ->
     doc_id doc1 = doc_id doc2 -> t1 = t2).

(** The page number the loop of [detectCurrentPage] stops at, if any,
    scanning [pages] from index [i]. *)
Fixpoint first_hit (rects : nat -> Rect) (center : Q) (pages : list PageContainer) (i : nat)
    : option Z :=
  match pages with
  | [] => None
  | page :: rest =>
      if contains_center (rects (pc_node page)) center then Some (Z.of_nat i + 1)%Z
      else first_hit rects center rest (S i)
  end.

(** [confined R m s]: started in [s], and with handlers that respect [R]
    dispatched at its awaits, the program [m] only makes [R]-steps. *)
Fixpoint confined (R : State -> State -> Prop) {A} (m : Async A) (s : State) : Prop :=
  match m with
  | Ret _ => True
  | Throw _ => True
  | Get k => confined R (k s) s
  | Put s' k => R s s' /\ confined R k s'
  | Await k => forall s', R s s' -> confined R k s'
  end.

(** The alerts raised so far are the same in both states. *)
Definition same_alerts (s s' : State) : Prop := alerts (win s') = alerts (win s).

(** The console entries a render of the pages [pageNums] of [doc] makes:
    one for each page whose text layer fails, in page order. *)
Definition text_errors (doc : PDFDocument) (pageNums : list nat) : list (string * Error) :=
  omap (fun n =>
          match getPage doc n with
          | inr page =>
              match text_error page with
              | Some e => Some ("Error rendering text layer:", e)
              | None => None
              end
          | inl _ => None
          end) pageNums.

(** ** Running programs: equations *)

Section Run.
Context {A B : Type}.

Lemma run_bind (m : Async A) (f : A -> Async B) (s : State) :
  run (bind m f) s =
    match run m s with
    | (s', inr a) => run (f a) s'
    | (s', inl e) => (s', inl e)
    end.
Proof.
  revert s. induction m as [a|e|k IH|s0 k IH|k IH]; intros s; cbn; auto.
Qed.

Lemma run_try_catch (m : Async A) (h : Error -> Async A) (s : State) :
  run (try_catch m h) s =
    match run m s with
    | (s', inr a) => (s', inr a)
    | (s', inl e) => run (h e) s'
    end.
Proof.
  revert s. induction m as [a|e|k IH|s0 k IH|k IH]; intros s; cbn; auto.
Qed.

End Run.

Lemma run_await_call {A} (m : Async A) (s : State) :
  run (await_call m) s = run m s.
Proof.
  unfold await_call. rewrite run_bind.
  destruct (run m s) as [s' [e|a]]; reflexivity.
Qed.

Lemma run_createPageContainer doc pageNum tabId s tab page :
  tabs (app s) !! tabId = Some tab ->
  getPage doc pageNum = inr page ->
  page_render page = None ->
  run (createPageContainer doc pageNum tabId) s =
    (after_page page s,
     inr (rendered_page (devicePixelRatio (win s)) (next_node (dom s))
            tab page pageNum tabId)).
Proof.
  intros Htab Hpage Hrender.
  unfold createPageContainer, after_page, rendered_page, text_error, tab_viewport.
  cbn. rewrite Htab, Hpage. cbn. rewrite Hrender. cbn.
  destruct (page_getTextContent page) as [e|]; cbn; [reflexivity|].
  destruct (page_textLayer page) as [e|]; reflexivity.
Qed.

Lemma render_frame_refl s : render_frame s s.
Proof. by constructor. Qed.

Lemma render_frame_trans s1 s2 s3 :
  render_frame s1 s2 -> render_frame s2 s3 -> render_frame s1 s3.
Proof. intros [] []; constructor; congruence. Qed.

Lemma createPageContainer_frame doc pageNum tabId s :
  render_frame s (fst (run (createPageContainer doc pageNum tabId) s)) /\
  pageElements (reg (fst (run (createPageContainer doc pageNum tabId) s))) =
    pageElements (reg s).
Proof.
  unfold createPageContainer. cbn.
  destruct (getPage doc pageNum) as [e|page]; cbn; [by split|].
  destruct (tabs (app s) !! tabId) as [tab|]; cbn; [|by split].
  destruct (page_render page) as [e|]; cbn; [by split|].
  destruct (page_getTextContent page) as [e|]; cbn; [by split|].
  destruct (page_textLayer page) as [e|]; by split.
Qed.

Section RenderedPages.
Variables (ratio : option Q) (tab : Tab) (doc : PDFDocument) (tabId : TabId).

Lemma rendered_pages_page node pageNums pages :
  rendered_pages ratio tab doc tabId node pageNums pages ->
  pc_page <$> pages = pageNums.
Proof. induction 1; cbn; congruence. Qed.

Lemma rendered_pages_node node pageNums pages :
  rendered_pages ratio tab doc tabId node pageNums pages ->
  pc_node <$> pages = seq node (length pageNums).
Proof. induction 1; cbn; congruence. Qed.

Lemma rendered_pages_length node pageNums pages :
  rendered_pages ratio tab doc tabId node pageNums pages ->
  length pages = length pageNums.
Proof. induction 1; cbn; congruence. Qed.

End RenderedPages.

Lemma render_pages_frame doc tabId pageNums : forall pages s,
  render_frame s (fst (run (render_pages doc tabId pageNums pages) s)) /\
  pageElements (reg (fst (run (render_pages doc tabId pageNums pages) s))) =
    pageElements (reg s).
Proof.
  induction pageNums as [|pageNum rest IH]; intros pages s; cbn -[createPageContainer].
  - split; [apply render_frame_refl | reflexivity].
  - rewrite run_bind, run_await_call.
    destruct (createPageContainer_frame doc pageNum tabId s) as [Hf Hp].
    destruct (run (createPageContainer doc pageNum tabId) s) as [s1 [e|pc]];
      cbn in Hf, Hp |- *; [by split|].
    match goal with
    | |- context [run (render_pages _ _ _ ?ps) ?s2] =>
        destruct (IH ps s2) as [Hf2 Hp2]
    end.
    split.
    + eapply render_frame_trans; [|exact Hf2].
      destruct Hf; constructor; cbn; assumption.
    + rewrite Hp2. cbn. exact Hp.
Qed.

Lemma run_render_pages doc tabId tab pageNums : forall pages s,
  tabs (app s) !! tabId = Some tab ->
  Forall (fun n => exists page, getPage doc n = inr page /\ page_render page = None)
    pageNums ->
  exists s' new,
    run (render_pages doc tabId pageNums pages) s = (s', inr (pages ++ new)%list) /\
    rendered_pages (devicePixelRatio (win s)) tab doc tabId
      (next_node (dom s)) pageNums new /\
    viewer (dom s') = (viewer (dom s) ++ (Page <$> new))%list.
Proof.
  induction pageNums as [|pageNum rest IH]; intros pages s Htab Hall.
  - exists s, []. cbn. rewrite !app_nil_r. repeat split. constructor.
  - apply Forall_cons in Hall as [(page & Hpage & Hrender) Hall].
    cbn -[createPageContainer].
    rewrite run_bind, run_await_call.
    rewrite (run_createPageContainer _ _ _ _ tab page Htab Hpage Hrender).
    cbn -[rendered_page].
    set (pc := rendered_page _ _ tab page pageNum tabId).
    set (s1 := with_dom _ (after_page page s)).
    destruct (IH (pages ++ [pc])%list s1) as (s' & new & Hrun & Hnew & Hviewer).
    { subst s1. unfold after_page. destruct (text_error page); exact Htab. }
    { exact Hall. }
    exists s', (pc :: new). rewrite Hrun. split; [|split].
    + by rewrite <- app_assoc.
    + assert (Hr : devicePixelRatio (win s1) = devicePixelRatio (win s))
        by (subst s1; unfold after_page; destruct (text_error page); reflexivity).
      assert (Hn : next_node (dom s1) = S (next_node (dom s)))
        by (subst s1; unfold after_page; destruct (text_error page); reflexivity).
      rewrite Hr, Hn in Hnew. by constructor.
    + rewrite Hviewer.
      assert (Hv : viewer (dom s1) = (viewer (dom s) ++ [Page pc])%list)
        by (subst s1; unfold after_page; destruct (text_error page); reflexivity).
      rewrite Hv, <- app_assoc. reflexivity.
Qed.

(** ** [renderDocument] *)

Lemma run_renderDocument tabId s doc tab :
  documents (reg s) !! tabId = Some doc ->
  tabs (app s) !! tabId = Some tab ->
  run (renderDocument tabId) s =
    match run (render_pages doc tabId (seq 1 (numPages doc)) []) (cleared tab s) with
    | (s', inr pages) => (with_reg (upd_pageElements (insert tabId pages)) s', inr tt)
    | (s', inl e) => (s', inl e)
    end.
Proof.
  intros Hdoc Htab. unfold renderDocument.
  cbn -[render_pages]. rewrite Hdoc. cbn -[render_pages]. rewrite Htab.
  cbn -[render_pages]. rewrite run_bind. reflexivity.
Qed.

Lemma run_renderDocument_no_doc tabId s :
  documents (reg s) !! tabId = None ->
  run (renderDocument tabId) s = (s, inr tt).
Proof. intros H. unfold renderDocument. cbn. rewrite H. reflexivity. Qed.

Lemma run_renderDocument_no_tab tabId s :
  tabs (app s) !! tabId = None ->
  run (renderDocument tabId) s = (s, inr tt).
Proof.
  intros H. unfold renderDocument. cbn.
  destruct (documents (reg s) !! tabId); cbn; [rewrite H|]; reflexivity.
Qed.

(** Whatever happens to its pages, a render leaves the rest of the state
    alone and touches the page-element registry at most by storing a
    sequence for its own tab, which then has a document. *)
Lemma renderDocument_frame tabId s :
  render_frame s (fst (run (renderDocument tabId) s)) /\
  (pageElements (reg (fst (run (renderDocument tabId) s))) = pageElements (reg s) \/
   exists pages,
     is_Some (documents (reg s) !! tabId) /\
     pageElements (reg (fst (run (renderDocument tabId) s))) =
       <[tabId := pages]> (pageElements (reg s))).
Proof.
  destruct (documents (reg s) !! tabId) as [doc|] eqn:Hdoc.
  2:{ rewrite run_renderDocument_no_doc by exact Hdoc.
      split; [apply render_frame_refl | by left]. }
  destruct (tabs (app s) !! tabId) as [tab|] eqn:Htab.
  2:{ rewrite run_renderDocument_no_tab by exact Htab.
      split; [apply render_frame_refl | by left]. }
  rewrite (run_renderDocument _ _ doc tab Hdoc Htab).
  destruct (render_pages_frame doc tabId (seq 1 (numPages doc)) [] (cleared tab s))
    as [Hf Hp].
  destruct (run (render_pages doc tabId (seq 1 (numPages doc)) []) (cleared tab s))
    as [s' [e|pages]]; cbn in Hf, Hp |- *.
  - split; [|by left]. destruct Hf; constructor; assumption.
  - split; [destruct Hf; constructor; assumption|].
    right. exists pages. split; [by eexists|]. by rewrite Hp.
Qed.

Lemma renders_in_range doc :
  renders (doc_body doc) ->
  Forall (fun n => exists page, getPage doc n = inr page /\ page_render page = None)
    (seq 1 (numPages doc)).
Proof.
  intros H. apply Forall_forall. intros n Hn.
  apply list_elem_of_In, in_seq in Hn. apply H. unfold numPages in Hn. lia.
Qed.

(** A render whose pages all render returns, with the viewer holding
    exactly the containers built and the registry entry replaced by them. *)
Lemma run_renderDocument_renders tabId s doc tab :
  documents (reg s) !! tabId = Some doc ->
  tabs (app s) !! tabId = Some tab ->
  renders (doc_body doc) ->
  exists s' pages,
    run (renderDocument tabId) s = (s', inr tt) /\
    rendered_pages (devicePixelRatio (win s)) tab doc tabId (next_node (dom s))
      (seq 1 (numPages doc)) pages /\
    viewer (dom s') = Page <$> pages /\
    pageElements (reg s') = <[tabId := pages]> (pageElements (reg s)) /\
    documents (reg s') = documents (reg s).
Proof.
  intros Hdoc Htab Hok.
  rewrite (run_renderDocument _ _ doc tab Hdoc Htab).
  destruct (run_render_pages doc tabId tab (seq 1 (numPages doc)) [] (cleared tab s))
    as (s' & pages & Hrun & Hpages & Hviewer); [exact Htab | by apply renders_in_range |].
  destruct (render_pages_frame doc tabId (seq 1 (numPages doc)) [] (cleared tab s))
    as [Hf Hp].
  rewrite Hrun in Hf, Hp |- *. cbn in Hf, Hp, Hviewer, Hpages |- *.
  eexists _, pages. split; [reflexivity|]. cbn.
  repeat split.
  - exact Hpages.
  - exact Hviewer.
  - by rewrite Hp.
  - apply Hf.
Qed.

(** C1 (amended): for a tab with a loaded document and a tab-manager
    entry, all of whose pages are fetched and rasterised without error,
    [renderDocument] returns normally, leaves in the viewer exactly the
    containers it built (the viewer was emptied first), has built
    [numPages] of them, for the pages 1 to [numPages] in this order, each a
    new element, and stores this sequence as the tab's entry of the
    page-element registry in place of the old one. *)
Theorem renderDocument_rebuilds tabId s doc tab :
  documents (reg s) !! tabId = Some doc ->
  tabs (app s) !! tabId = Some tab ->
  renders (doc_body doc) ->
  exists s' pages,
    run (renderDocument tabId) s = (s', inr tt) /\
    length pages = numPages doc /\
    pc_page <$> pages = seq 1 (numPages doc) /\
    pc_node <$> pages = seq (next_node (dom s)) (numPages doc) /\
    viewer (dom s') = Page <$> pages /\
    pageElements (reg s') = <[tabId := pages]> (pageElements (reg s)) /\
    documents (reg s') = documents (reg s).
Proof.
  intros Hdoc Htab Hok.
  destruct (run_renderDocument_renders tabId s doc tab Hdoc Htab Hok)
    as (s' & pages & Hrun & Hpages & Hviewer & Hreg & Hdocs).
  exists s', pages. split; [exact Hrun|].
  split; [|split; [|split; [|by repeat split]]].
  - rewrite (rendered_pages_length _ _ _ _ _ _ _ Hpages). apply length_seq.
  - exact (rendered_pages_page _ _ _ _ _ _ _ Hpages).
  - rewrite (rendered_pages_node _ _ _ _ _ _ _ Hpages), length_seq. reflexivity.
Qed.

Lemma renderDocument_rebuilds_witness :
  exists s' pages,
    run (renderDocument 7) loaded_state = (s', inr tt) /\
    length pages = 2 /\
    pc_page <$> pages = [1; 2] /\
    pc_node <$> pages = [2; 3] /\
    viewer (dom s') = Page <$> pages /\
    pageElements (reg s') = <[7 := pages]> (pageElements (reg loaded_state)) /\
    documents (reg s') = documents (reg loaded_state).
Proof.
  apply (renderDocument_rebuilds 7 loaded_state
           {| doc_id := 0; doc_body := body_of [good_page; good_page] |} sample_tab).
  - reflexivity.
  - reflexivity.
  - intros n Hn. exists good_page.
    assert (n = 1 \/ n = 2) as [-> | ->] by (cbn in Hn; lia); split; reflexivity.
Defined.

(** C1 as stated fails: tab 7 has a document and a tab-manager entry, but
    the second of its two pages does not rasterise; the render throws, the
    viewer keeps the one container built so far and the registry keeps the
    old sequence. *)
Lemma renderDocument_rebuilds_counterexample :
  is_Some (documents (reg damaged_state) !! 7) /\
  is_Some (tabs (app damaged_state) !! 7) /\
  snd (run (renderDocument 7) damaged_state) = inl "Bad content stream" /\
  length (viewer (dom (exec (renderDocument 7) damaged_state))) = 1 /\
  pageElements (reg (exec (renderDocument 7) damaged_state)) !! 7 = Some [].
Proof.
  repeat split; try (by eexists); vm_compute; reflexivity.
Qed.

(** ** [createPageContainer] and the text layer *)

(** C3: when the text-layer rendering of a page throws (at
    [getTextContent] or at the text-layer render itself), and the page was
    fetched and rasterised, [createPageContainer] logs the error on the
    console and returns normally a container that holds the painted
    canvas, the text-layer element without text, and the annotation layer. *)
Theorem createPageContainer_swallows_text_error doc pageNum tabId s tab page e :
  tabs (app s) !! tabId = Some tab ->
  getPage doc pageNum = inr page ->
  page_render page = None ->
  text_error page = Some e ->
  exists s' pc,
    run (createPageContainer doc pageNum tabId) s = (s', inr pc) /\
    console (win s') = (console (win s) ++ [("Error rendering text layer:", e)])%list /\
    alerts (win s') = alerts (win s) /\
    pc_page pc = pageNum /\
    pc_children pc =
      [CanvasNode (page_canvas (tab_viewport tab page)
                     (or_default_Q (devicePixelRatio (win s)) 1));
       TextLayerNode (page_textLayerDiv (tab_viewport tab page) false);
       AnnotationLayerNode (page_annotationLayerDiv (tab_viewport tab page) pageNum tabId)].
Proof.
  intros Htab Hpage Hrender Htext.
  rewrite (run_createPageContainer _ _ _ _ tab page Htab Hpage Hrender).
  eexists _, _. split; [reflexivity|].
  unfold after_page, rendered_page. rewrite Htext. cbn. repeat split.
Qed.

Lemma createPageContainer_swallows_text_error_witness :
  exists s' pc,
    run (createPageContainer (new_handle fresh_state (body_of [untexted_page; good_page]))
           1 7) fresh_state = (s', inr pc) /\
    console (win s') = [("Error rendering text layer:", "Invalid font data")] /\
    alerts (win s') = [] /\
    pc_page pc = 1 /\
    pc_children pc =
      [CanvasNode (page_canvas (tab_viewport sample_tab untexted_page) 2);
       TextLayerNode (page_textLayerDiv (tab_viewport sample_tab untexted_page) false);
       AnnotationLayerNode
         (page_annotationLayerDiv (tab_viewport sample_tab untexted_page) 1 7)].
Proof.
  apply (createPageContainer_swallows_text_error
           (new_handle fresh_state (body_of [untexted_page; good_page]))
           1 7 fresh_state sample_tab untexted_page "Invalid font data");
    reflexivity.
Defined.

(** A document whose first page has no usable text still loads: both
    pages are registered, the first without text, and the error is on the
    console only. *)
Example text_error_stays_in_page :
  snd (run (loadDocument [Byte.x3f] 7) fresh_state) =
    inr (new_handle fresh_state (body_of [untexted_page; good_page])) /\
  pc_page <$> default [] (pageElements (reg untexted_state) !! 7) = [1; 2] /\
  console (win untexted_state) = [("Error rendering text layer:", "Invalid font data")] /\
  alerts (win untexted_state) = [].
Proof. repeat split; vm_compute; reflexivity. Qed.

(** ** [loadDocument] *)

Lemma run_loadDocument_fail data tabId s e :
  getDocument (pdfjs s) data = inl e ->
  run (loadDocument data tabId) s = (load_failed e s, inl e).
Proof.
  intros H. unfold loadDocument, await_getDocument. cbn. rewrite H. reflexivity.
Qed.

Lemma run_loadDocument_ok data tabId s body :
  getDocument (pdfjs s) data = inr body ->
  run (loadDocument data tabId) s =
    match run (renderDocument tabId) (registered tabId body s) with
    | (s', inr _) => (s', inr (new_handle s body))
    | (s', inl e) => (load_failed e s', inl e)
    end.
Proof.
  intros H. unfold loadDocument. rewrite run_try_catch.
  unfold await_getDocument. cbn -[renderDocument]. rewrite H.
  cbn -[renderDocument]. rewrite run_bind, run_await_call.
  fold (new_handle s body).
  change (run (renderDocument tabId) _)
    with (run (renderDocument tabId) (registered tabId body s)).
  destruct (run (renderDocument tabId) (registered tabId body s)) as [s' [e|[]]];
    reflexivity.
Qed.







(** ** [closeDocument] *)

Lemma run_closeDocument tabId s :
  run (closeDocument tabId) s = (closed tabId s, inr tt).
Proof.
  unfold closeDocument, closed. cbn.
  destruct (documents (reg s) !! tabId) as [doc|]; reflexivity.
Qed.

(** C5: [closeDocument] always returns; it removes the tab's entry from
    the document registry and from the page-element registry and leaves
    every other entry, the shell, the DOM and the window as they were.  If
    the tab had a registered document, exactly that handle is destroyed;
    if it had none, nothing is destroyed and the document registry is
    unchanged (and so is the whole state when the tab had no page-element
    entry either). *)
Theorem closeDocument_effect tabId s :
  exists s',
    run (closeDocument tabId) s = (s', inr tt) /\
    documents (reg s') = delete tabId (documents (reg s)) /\
    pageElements (reg s') = delete tabId (pageElements (reg s)) /\
    handles (pdfjs s') = handles (pdfjs s) /\
    app s' = app s /\ dom s' = dom s /\ win s' = win s /\
    (forall doc, documents (reg s) !! tabId = Some doc ->
       destroyed (pdfjs s') = (destroyed (pdfjs s) ++ [doc_id doc])%list) /\
    (documents (reg s) !! tabId = None ->
       destroyed (pdfjs s') = destroyed (pdfjs s) /\
       documents (reg s') = documents (reg s) /\
       (pageElements (reg s) !! tabId = None -> s' = s)).
Proof.
  exists (closed tabId s). split; [apply run_closeDocument|].
  unfold closed.
  destruct (documents (reg s) !! tabId) as [doc|] eqn:Hdoc; cbn.
  - repeat split; congruence.
  - repeat split; try congruence.
    + by apply delete_id.
    + intros Hpages. destruct s as [[docs pages] d a w p]. cbn in *.
      unfold with_reg, upd_pageElements, upd_documents. cbn.
      by rewrite !delete_id.
Qed.

Lemma closeDocument_effect_witness :
  documents (reg (exec (closeDocument 7) loaded_state)) !! 7 = None /\
  pageElements (reg (exec (closeDocument 7) loaded_state)) !! 7 = None /\
  destroyed (pdfjs (exec (closeDocument 7) loaded_state)) = [0].
Proof.
  unfold exec.
  destruct (closeDocument_effect 7 loaded_state)
    as (s' & -> & Hd & Hp & _ & _ & _ & _ & Hdestroyed & _).
  cbn. rewrite Hd, Hp, !lookup_delete_eq.
  repeat split. exact (Hdestroyed _ eq_refl).
Defined.

(** ** [goToPage] *)

(** C9: when the tab has no page-element entry, or the page number is
    below 1 or above the number of registered page containers,
    [goToPage] returns without changing anything: nothing is scrolled into
    view, the tab's current page, the page-number input and the sidebar
    stay as they were. *)
Theorem goToPage_out_of_range tabId pageNum s :
  ~ page_in_range s tabId pageNum ->
  run (goToPage tabId pageNum) s = (s, inr tt).
Proof.
  intros Hout. unfold goToPage. cbn.
  destruct (pageElements (reg s) !! tabId) as [pages|] eqn:Hpages; cbn; [|reflexivity].
  destruct (pageNum <? 1)%Z eqn:Hlo; cbn; [reflexivity|].
  destruct (Z.of_nat (length pages) <? pageNum)%Z eqn:Hhi; cbn; [reflexivity|].
  exfalso. apply Hout. exists pages. split; [exact Hpages | lia].
Qed.

Lemma goToPage_out_of_range_witness :
  run (goToPage 7 3) loaded_state = (loaded_state, inr tt) /\
  run (goToPage 7 0) loaded_state = (loaded_state, inr tt) /\
  run (goToPage 8 1) loaded_state = (loaded_state, inr tt).
Proof.
  split; [|split]; apply goToPage_out_of_range; intros (pages & Hpages & Hrange);
    vm_compute in Hpages; try discriminate;
    injection Hpages as <-; cbn in Hrange; lia.
Defined.

(** Inside the range [goToPage] does act. *)
Example goToPage_in_range :
  let s' := exec (goToPage 7 2) loaded_state in
  scrolledIntoView (dom s') = [1] /\
  tab_currentPage <$> tabs (app s') !! 7 = Some (Some 2%Z) /\
  pageNumberInput (dom s') = Some 2%Z /\
  sidebar (app s') = [(7, 2%Z)].
Proof. vm_compute. repeat split. Qed.

(** ** Page dimensions *)

Lemma canvas_dimension_in_range default v :
  (0 <= v <= 2147483647)%Z -> canvas_dimension default v = v.
Proof.
  intros H. unfold canvas_dimension.
  rewrite Z.mod_small by lia.
  destruct (Z.leb_spec v 2147483647); [reflexivity | lia].
Qed.

(** C7 (amended): for a page that is fetched and rasterised, with
    [viewport] the viewport of the page at the tab's zoom and rotation and
    [dpr] the device pixel ratio, the numbers assigned to the canvas width
    and height are the floors of the double-precision products
    [width * dpr] and [height * dpr].  The canvas backing store has these
    dimensions when they lie between 0 and [2 ^ 31 - 1]; a number outside
    this range is taken modulo [2 ^ 32] and replaced by the default (300
    for the width, 150 for the height) when it is still too large.  The
    CSS size of the canvas and the size of the page container are the
    viewport's width and height, and [dpr] is 1 when the device pixel ratio
    is unavailable. *)
Theorem createPageContainer_dimensions doc pageNum tabId s tab page :
  tabs (app s) !! tabId = Some tab ->
  getPage doc pageNum = inr page ->
  page_render page = None ->
  exists s' pc canvas text ann dpr,
    run (createPageContainer doc pageNum tabId) s = (s', inr pc) /\
    pc_children pc = [CanvasNode canvas; TextLayerNode text; AnnotationLayerNode ann] /\
    canvas_width canvas =
      canvas_dimension 300 (Qfloor (js_mul (vp_width (tab_viewport tab page)) dpr)) /\
    canvas_height canvas =
      canvas_dimension 150 (Qfloor (js_mul (vp_height (tab_viewport tab page)) dpr)) /\
    ((0 <= Qfloor (js_mul (vp_width (tab_viewport tab page)) dpr) <= 2147483647)%Z ->
     canvas_width canvas = Qfloor (js_mul (vp_width (tab_viewport tab page)) dpr)) /\
    ((0 <= Qfloor (js_mul (vp_height (tab_viewport tab page)) dpr) <= 2147483647)%Z ->
     canvas_height canvas = Qfloor (js_mul (vp_height (tab_viewport tab page)) dpr)) /\
    canvas_style_width canvas = vp_width (tab_viewport tab page) /\
    canvas_style_height canvas = vp_height (tab_viewport tab page) /\
    pc_style_width pc = vp_width (tab_viewport tab page) /\
    pc_style_height pc = vp_height (tab_viewport tab page) /\
    match devicePixelRatio (win s) with
    | None => dpr = 1%Q
    | Some ratio => if Qeq_bool ratio 0 then dpr = 1%Q else dpr = ratio
    end.
Proof.
  intros Htab Hpage Hrender.
  rewrite (run_createPageContainer _ _ _ _ tab page Htab Hpage Hrender).
  eexists _, _, _, _, _, (or_default_Q (devicePixelRatio (win s)) 1).
  split; [reflexivity|]. split; [reflexivity|].
  split; [reflexivity|]. split; [reflexivity|].
  split; [intros H; by apply canvas_dimension_in_range|].
  split; [intros H; by apply canvas_dimension_in_range|].
  do 4 (split; [reflexivity|]).
  destruct (devicePixelRatio (win s)) as [ratio|]; cbn; [|reflexivity].
  destruct (Qeq_bool ratio 0); reflexivity.
Qed.

Lemma createPageContainer_dimensions_witness :
  exists s' pc canvas text ann dpr,
    run (createPageContainer (new_handle fresh_state (body_of [good_page; good_page]))
           1 7) fresh_state = (s', inr pc) /\
    pc_children pc = [CanvasNode canvas; TextLayerNode text; AnnotationLayerNode ann] /\
    canvas_width canvas =
      canvas_dimension 300 (Qfloor (js_mul (vp_width (tab_viewport sample_tab good_page)) dpr)) /\
    canvas_height canvas =
      canvas_dimension 150 (Qfloor (js_mul (vp_height (tab_viewport sample_tab good_page)) dpr)) /\
    ((0 <= Qfloor (js_mul (vp_width (tab_viewport sample_tab good_page)) dpr) <= 2147483647)%Z ->
     canvas_width canvas = Qfloor (js_mul (vp_width (tab_viewport sample_tab good_page)) dpr)) /\
    ((0 <= Qfloor (js_mul (vp_height (tab_viewport sample_tab good_page)) dpr) <= 2147483647)%Z ->
     canvas_height canvas = Qfloor (js_mul (vp_height (tab_viewport sample_tab good_page)) dpr)) /\
    canvas_style_width canvas = vp_width (tab_viewport sample_tab good_page) /\
    canvas_style_height canvas = vp_height (tab_viewport sample_tab good_page) /\
    pc_style_width pc = vp_width (tab_viewport sample_tab good_page) /\
    pc_style_height pc = vp_height (tab_viewport sample_tab good_page) /\
    dpr = 2%Q.
Proof.
  exact (createPageContainer_dimensions
           (new_handle fresh_state (body_of [good_page; good_page]))
           1 7 fresh_state sample_tab good_page eq_refl eq_refl eq_refl).
Defined.

(** C7 as stated fails in two ways.  At zoom 1.2 on a display of ratio
    1.25 a Letter page is 734.4 CSS pixels wide, a number the nearest
    double of which lies below it: the product with 1.25 is 918 in double
    precision, and the canvas is 918 pixels wide, while the floor of the
    exact product of the two doubles is 917.  At zoom 4194304 the width is
    2566914048 and the height 3321888768 pixels, above [2 ^ 31 - 1]: the
    canvas is 300 by 150. *)
Lemma createPageContainer_dimensions_counterexample :
  match snd (run (createPageContainer (new_handle fresh_state (body_of [good_page])) 1 7)
               (scaled_state (js_round (6 # 5)) (5 # 4))) with
  | inr pc =>
      match pc_children pc with
      | CanvasNode canvas :: _ =>
          Qeq (vp_width (canvas_painted canvas)) (js_round (7344 # 10)) /\
          canvas_width canvas = 918%Z /\
          Qfloor (vp_width (canvas_painted canvas) * (5 # 4)) = 917%Z
      | _ => False
      end
  | inl _ => False
  end /\
  match snd (run (createPageContainer (new_handle fresh_state (body_of [good_page])) 1 7)
               (scaled_state 4194304 1)) with
  | inr pc =>
      match pc_children pc with
      | CanvasNode canvas :: _ =>
          canvas_width canvas = 300%Z /\ canvas_height canvas = 150%Z /\
          Qfloor (vp_width (canvas_painted canvas) * 1) = 2566914048%Z /\
          Qfloor (vp_height (canvas_painted canvas) * 1) = 3321888768%Z
      | _ => False
      end
  | inl _ => False
  end.
Proof. split; vm_compute; repeat split. Qed.

(** The arithmetic of [js_round] is that of the machine's doubles: the
    products, quotients and sums below are computed once by the hardware
    operations and once by rounding the exact rational result. *)
Example js_arithmetic_is_binary64 :
  float_value (float_ratio 7344 10) = Some (Qred (js_div 7344 10)) /\
  float_value (PrimFloat.mul (float_ratio 7344 10) (float_ratio 5 4)) =
    Some (Qred (js_mul (js_div 7344 10) (js_div 5 4))) /\
  float_value (PrimFloat.mul (float_ratio 612 1) (float_ratio 12 10)) =
    Some (Qred (js_mul 612 (js_div 12 10))) /\
  float_value (PrimFloat.mul (PrimFloat.mul (float_ratio 612 1) (float_ratio 7 10))
                 (float_ratio 5 2)) =
    Some (Qred (js_mul (js_mul 612 (js_div 7 10)) (js_div 5 2))) /\
  float_value (PrimFloat.add (float_ratio 1 10)
                 (PrimFloat.div (float_ratio 4 10) (float_ratio 2 1))) =
    Some (Qred (js_add (js_div 1 10) (js_div (js_div 4 10) 2))) /\
  float_value (float_ratio 1 3) = Some (Qred (js_div 1 3)) /\
  float_value (PrimFloat.add (float_ratio 9007199254740992 1) (float_ratio 1 1)) =
    Some (Qred (js_add 9007199254740992 1)).
Proof. vm_compute. repeat split. Qed.

(** A Letter page at zoom 1.5 on a display of ratio 2: a canvas of 1836 by
    2376 device pixels shown at 918 by 1188 CSS pixels. *)
Example letter_page_dimensions :
  match pageElements (reg loaded_state) !! 7 with
  | Some (pc :: _) =>
      match pc_children pc with
      | CanvasNode canvas :: _ =>
          canvas_width canvas = 1836%Z /\ canvas_height canvas = 2376%Z /\
          Qeq (canvas_style_width canvas) 918 /\ Qeq (canvas_style_height canvas) 1188 /\
          Qeq (pc_style_width pc) 918 /\ Qeq (pc_style_height pc) 1188
      | _ => False
      end
  | _ => False
  end.
Proof. vm_compute. repeat split. Qed.

(** ** [setRotation] *)

Lemma goToPage_stored_rotation tabId pageNum s t :
  stored_rotation (fst (run (goToPage tabId pageNum) s)) t = stored_rotation s t.
Proof.
  unfold goToPage, stored_rotation. cbn.
  destruct (pageElements (reg s) !! tabId) as [pages|]; cbn; [|reflexivity].
  destruct (pageNum <? 1)%Z; cbn; [reflexivity|].
  destruct (Z.of_nat (length pages) <? pageNum)%Z; cbn; [reflexivity|].
  destruct (pages !! Z.to_nat (pageNum - 1)) as [pc|]; cbn; [|reflexivity].
  destruct (decide (tabId = t)) as [->|Hne].
  - rewrite lookup_alter_eq. by destruct (tabs (app s) !! t).
  - by rewrite lookup_alter_ne.
Qed.

(** C8, what the code does: [setRotation] never stores the angle it is
    given; whatever the angle, every tab's stored rotation is after the
    call what it was before. *)
Theorem setRotation_keeps_stored_rotation tabId rotation s t :
  stored_rotation (exec (setRotation tabId rotation) s) t = stored_rotation s t.
Proof.
  unfold exec, setRotation. cbn -[renderDocument goToPage].
  destruct (tabs (app s) !! tabId) as [tab|]; cbn -[renderDocument goToPage];
    [|reflexivity].
  rewrite run_bind, run_await_call.
  destruct (renderDocument_frame tabId s) as [Hf _].
  destruct (run (renderDocument tabId) s) as [s1 [e|[]]]; cbn in Hf.
  - cbn. unfold stored_rotation. by rewrite (frame_app _ _ Hf).
  - rewrite run_await_call, goToPage_stored_rotation.
    unfold stored_rotation. by rewrite (frame_app _ _ Hf).
Qed.

(** Tab 7 is shown unrotated; after [setRotation 7 90] its stored rotation
    is still unset and both pages are painted unrotated, on the page the
    tab was on. *)
Example setRotation_quarter_turn :
  let s' := exec (setRotation 7 90) loaded_state in
  stored_rotation s' 7 = Some None /\
  painted_rotations s' 7 = [0%Z; 0%Z] /\
  scrolledIntoView (dom s') = [2].
Proof. vm_compute. repeat split. Qed.

(** The sibling [setZoom] does store its argument before it re-renders. *)
Example setZoom_stores_zoom :
  tab_zoom <$> tabs (app (exec (setZoom 7 2) loaded_state)) !! 7 = Some (Some 2%Q).
Proof. vm_compute. reflexivity. Qed.

(** ** Live handles *)

Lemma loadDocument_handles data tabId s body :
  getDocument (pdfjs s) data = inr body ->
  handles (pdfjs (exec (loadDocument data tabId) s)) =
    (handles (pdfjs s) ++ [(tabId, next_doc (pdfjs s))])%list /\
  destroyed (pdfjs (exec (loadDocument data tabId) s)) = destroyed (pdfjs s).
Proof.
  intros H. unfold exec. rewrite (run_loadDocument_ok _ _ _ _ H).
  destruct (renderDocument_frame tabId (registered tabId body s)) as [Hf _].
  destruct (run (renderDocument tabId) (registered tabId body s)) as [s' [e|[]]];
    cbn in Hf |- *; rewrite (frame_pdfjs _ _ Hf); split; reflexivity.
Qed.

(** C4, what the code does: a successful load hands out a new handle for
    the tab and destroys none, whatever the tab already holds.  Loading a
    second document for tab 7, which holds one, registers the new handle
    in place of the old one and leaves both live. *)
Theorem loadDocument_twice_two_live_handles :
  (forall data tabId s body,
     getDocument (pdfjs s) data = inr body ->
     handles (pdfjs (exec (loadDocument data tabId) s)) =
       (handles (pdfjs s) ++ [(tabId, next_doc (pdfjs s))])%list /\
     destroyed (pdfjs (exec (loadDocument data tabId) s)) = destroyed (pdfjs s)) /\
  live_handles 7 loaded_state = [0] /\
  live_handles 7 (exec (loadDocument [Byte.x25] 7) loaded_state) = [0; 1] /\
  doc_id <$> documents (reg (exec (loadDocument [Byte.x25] 7) loaded_state)) !! 7 = Some 1 /\
  destroyed (pdfjs (exec (loadDocument [Byte.x25] 7) loaded_state)) = [].
Proof.
  split; [exact loadDocument_handles|].
  repeat split; vm_compute; reflexivity.
Qed.

(** ** Programs among other handlers *)

Lemma run_among_nil {A} (m : Async A) s :
  run_among [] m s = ([], fst (run m s), snd (run m s)).
Proof.
  revert s. induction m as [a|e|k IH|s0 k IH|k IH]; intros s; cbn; auto.
Qed.

Lemma run_among_bind {A B} env (m : Async A) (f : A -> Async B) s :
  run_among env (bind m f) s =
    match run_among env m s with
    | (env', s', inr a) => run_among env' (f a) s'
    | (env', s', inl e) => (env', s', inl e)
    end.
Proof.
  revert env s. induction m as [a|e|k IH|s0 k IH|k IH]; intros env s; cbn; auto.
  destruct env; apply IH.
Qed.

(** A call that is not awaited, followed by the handler [h], then left to
    finish: the handler runs at the first await of the call. *)
Lemma exec_among_start {A} (h : State -> State) (m : Async A) s :
  exec_among [h] m s =
    match start m s with
    | (s1, Settled _) => s1
    | (s1, Pending k) => exec k (h s1)
    end.
Proof.
  unfold exec_among.
  revert s. induction m as [a|e|k IH|s0 k IH|k IH]; intros s; cbn; auto.
  by rewrite run_among_nil.
Qed.

Lemma steady_refl s : steady s s.
Proof. by repeat split. Qed.

Lemma steady_trans s1 s2 s3 : steady s1 s2 -> steady s2 s3 -> steady s1 s3.
Proof.
  intros (? & ? & ? & ? & ? & ?) (? & ? & ? & ? & ? & ?). repeat split; congruence.
Qed.

Lemma keeps_bind {A B} (m : Async A) (f : A -> Async B) s :
  keeps m s ->
  (forall a s', steady s s' -> keeps (f a) s') ->
  keeps (bind m f) s.
Proof.
  revert s. induction m as [a|e|k IH|s0 k IH|k IH]; intros s Hm Hf; cbn in *.
  - apply Hf, steady_refl.
  - exact I.
  - by apply IH.
  - destruct Hm as [Hs Hk]. split; [exact Hs|].
    apply IH; [exact Hk|]. intros a s' Hs'. apply Hf.
    by apply steady_trans with s0.
  - intros s' Hs'. apply IH; [by apply Hm|].
    intros a s2 Hs2. apply Hf. by apply steady_trans with s'.
Qed.

Lemma keeps_among {A} (m : Async A) : forall env s,
  Forall quiet env ->
  keeps m s ->
  Forall quiet (fst (fst (run_among env m s))) /\
  steady s (snd (fst (run_among env m s))).
Proof.
  induction m as [a|e|k IH|s0 k IH|k IH]; intros env s Henv Hm; cbn in *.
  - split; [exact Henv | apply steady_refl].
  - split; [exact Henv | apply steady_refl].
  - by apply IH.
  - destruct Hm as [Hs Hk]. destruct (IH env s0 Henv Hk) as [He Hs'].
    split; [exact He | by apply steady_trans with s0].
  - destruct env as [|h env'].
    + apply IH; [constructor | apply Hm, steady_refl].
    + apply Forall_cons in Henv as [Hh Henv].
      destruct (IH env' (h s) Henv (Hm _ (Hh s))) as [He Hs'].
      split; [exact He | by apply steady_trans with (h s)].
Qed.

Lemma steady_with_dom f s : steady s (with_dom f s).
Proof. by repeat split. Qed.

Lemma steady_console m s : steady s (with_win (upd_console m) s).
Proof. by repeat split. Qed.

Lemma createPageContainer_keeps doc pageNum tabId s :
  keeps (createPageContainer doc pageNum tabId) s.
Proof.
  unfold createPageContainer. cbn. intros s1 _.
  destruct (getPage doc pageNum) as [e|page]; cbn; [exact I|].
  destruct (tabs (app s) !! tabId) as [tab|]; cbn; [|exact I].
  split; [apply steady_with_dom|]. intros s2 _.
  destruct (page_render page) as [e|]; cbn; [exact I|]. intros s3 _.
  destruct (page_getTextContent page) as [e|]; cbn.
  { split; [apply steady_console | exact I]. }
  intros s4 _.
  destruct (page_textLayer page) as [e|]; cbn; [|exact I].
  split; [apply steady_console | exact I].
Qed.

Lemma render_pages_keeps doc tabId pageNums : forall pages s,
  keeps (render_pages doc tabId pageNums pages) s.
Proof.
  induction pageNums as [|pageNum rest IH]; intros pages s; cbn -[createPageContainer].
  - exact I.
  - apply keeps_bind.
    + unfold await_call. apply keeps_bind; [apply createPageContainer_keeps|].
      intros pc s' _. cbn. auto.
    + intros pc s' _. cbn. split; [apply steady_with_dom | apply IH].
Qed.

(** A render among quiet handlers: the document registry is left alone,
    and the page-element registry is either left alone or receives a
    sequence for the rendered tab, which has a document. *)
Lemma renderDocument_among env tabId s :
  Forall quiet env ->
  documents (reg (exec_among env (renderDocument tabId) s)) = documents (reg s) /\
  (pageElements (reg (exec_among env (renderDocument tabId) s)) = pageElements (reg s) \/
   exists pages,
     is_Some (documents (reg s) !! tabId) /\
     pageElements (reg (exec_among env (renderDocument tabId) s)) =
       <[tabId := pages]> (pageElements (reg s))).
Proof.
  intros Henv. unfold exec_among, renderDocument. cbn -[render_pages].
  destruct (documents (reg s) !! tabId) as [doc|] eqn:Hdoc; cbn -[render_pages];
    [|by split; [|left]].
  destruct (tabs (app s) !! tabId) as [tab|] eqn:Htab; cbn -[render_pages];
    [|by split; [|left]].
  rewrite run_among_bind.
  match goal with
  | |- context [run_among env ?m ?s0] =>
      destruct (keeps_among m env s0 Henv (render_pages_keeps _ _ _ _ _))
        as [_ (Hreg & _ & _)];
      destruct (run_among env m s0) as [[env' s'] [e|pages]]
  end; cbn in Hreg |- *.
  - rewrite Hreg. by split; [|left].
  - rewrite Hreg. split; [reflexivity|]. right. exists pages. by split; [eexists|].
Qed.

(** ** The two registries *)

Lemma registries_agree_reg s s' :
  reg s' = reg s -> registries_agree s -> registries_agree s'.
Proof. unfold registries_agree. by intros ->. Qed.

Lemma registries_agree_render s s' tabId :
  documents (reg s') = documents (reg s) ->
  (pageElements (reg s') = pageElements (reg s) \/
   exists pages,
     is_Some (documents (reg s) !! tabId) /\
     pageElements (reg s') = <[tabId := pages]> (pageElements (reg s))) ->
  registries_agree s -> registries_agree s'.
Proof.
  unfold registries_agree. intros Hd [Hp | (pages & Hdoc & Hp)] H t; rewrite Hd, Hp.
  - apply H.
  - destruct (decide (tabId = t)) as [->|Hne].
    + rewrite lookup_insert_eq. split; [by intros _ | by eexists].
    + rewrite lookup_insert_ne by exact Hne. apply H.
Qed.

Lemma registries_agree_renderDocument tabId s :
  registries_agree s -> registries_agree (exec (renderDocument tabId) s).
Proof.
  destruct (renderDocument_frame tabId s) as [Hf Hp].
  apply registries_agree_render with tabId; [apply Hf | exact Hp].
Qed.

Lemma registries_agree_registered tabId body s :
  registries_agree s -> registries_agree (registered tabId body s).
Proof.
  unfold registries_agree. intros H t. cbn.
  destruct (decide (tabId = t)) as [->|Hne].
  - rewrite !lookup_insert_eq. split; by eexists.
  - rewrite !lookup_insert_ne by exact Hne. apply H.
Qed.

Lemma registries_agree_loadDocument data tabId s :
  registries_agree s -> registries_agree (exec (loadDocument data tabId) s).
Proof.
  intros H. unfold exec.
  destruct (getDocument (pdfjs s) data) as [e|body] eqn:Hload.
  - rewrite (run_loadDocument_fail _ _ _ _ Hload). exact H.
  - rewrite (run_loadDocument_ok _ _ _ _ Hload).
    pose proof (registries_agree_renderDocument tabId _
                  (registries_agree_registered tabId body s H)) as Hr.
    unfold exec in Hr.
    destruct (run (renderDocument tabId) (registered tabId body s)) as [s' [e|[]]];
      exact Hr.
Qed.

Lemma registries_agree_closeDocument tabId s :
  registries_agree s -> registries_agree (exec (closeDocument tabId) s).
Proof.
  intros H. unfold exec. rewrite run_closeDocument.
  unfold registries_agree, closed. intros t.
  assert (Hreg : reg (match documents (reg s) !! tabId with
                      | Some doc => with_pdfjs (upd_destroyed (doc_id doc)) s
                      | None => s
                      end) = reg s)
    by (destruct (documents (reg s) !! tabId); reflexivity).
  cbn. rewrite Hreg.
  destruct (decide (tabId = t)) as [->|Hne].
  - rewrite !lookup_delete_eq. split; intros [? ?]; discriminate.
  - rewrite !lookup_delete_ne by exact Hne. apply H.
Qed.

Lemma goToPage_reg tabId pageNum s :
  reg (exec (goToPage tabId pageNum) s) = reg s.
Proof.
  unfold exec, goToPage. cbn.
  destruct (pageElements (reg s) !! tabId) as [pages|]; cbn; [|reflexivity].
  destruct (pageNum <? 1)%Z; cbn; [reflexivity|].
  destruct (Z.of_nat (length pages) <? pageNum)%Z; cbn; [reflexivity|].
  destruct (pages !! Z.to_nat (pageNum - 1)); reflexivity.
Qed.

Lemma registries_agree_setZoom tabId zoom s :
  registries_agree s -> registries_agree (exec (setZoom tabId zoom) s).
Proof.
  intros H. unfold exec, setZoom. cbn -[renderDocument].
  destruct (tabs (app s) !! tabId); cbn -[renderDocument]; [|exact H].
  rewrite run_await_call. by apply registries_agree_renderDocument.
Qed.

Lemma registries_agree_setRotation tabId rotation s :
  registries_agree s -> registries_agree (exec (setRotation tabId rotation) s).
Proof.
  intros H. unfold exec, setRotation. cbn -[renderDocument goToPage].
  destruct (tabs (app s) !! tabId) as [tab|]; cbn -[renderDocument goToPage];
    [|exact H].
  rewrite run_bind, run_await_call.
  pose proof (registries_agree_renderDocument tabId s H) as Hr. unfold exec in Hr.
  destruct (run (renderDocument tabId) s) as [s1 [e|[]]]; cbn in Hr; [exact Hr|].
  rewrite run_await_call.
  apply (registries_agree_reg s1); [apply goToPage_reg | exact Hr].
Qed.

Lemma restore_scroll_quiet tabId : quiet (restore_scroll tabId).
Proof.
  intros s. unfold restore_scroll.
  destruct (tabs (app s) !! tabId) as [tab|]; [|apply steady_refl].
  destruct (tab_scrollPosition tab) as [y|]; [|apply steady_refl].
  destruct (Qeq_bool y 0); [apply steady_refl | apply steady_with_dom].
Qed.

(** [switchToTab] and the render it leaves behind amount to the render
    with the scroll position restored at its first await, or after it
    when it has none. *)
Lemma switchToTab_settled_among tabId s :
  is_Some (documents (reg s) !! tabId) ->
  steady (exec_among [restore_scroll tabId] (renderDocument tabId) s)
    (switchToTab_settled tabId s).
Proof.
  intros [doc Hdoc]. unfold switchToTab_settled, switchToTab.
  rewrite Hdoc, exec_among_start.
  destruct (start (renderDocument tabId) s) as [s1 [r|k]].
  - apply restore_scroll_quiet.
  - apply steady_refl.
Qed.

Lemma registries_agree_switchToTab tabId s :
  registries_agree s -> registries_agree (switchToTab_settled tabId s).
Proof.
  intros H.
  destruct (documents (reg s) !! tabId) as [doc|] eqn:Hdoc.
  - destruct (switchToTab_settled_among tabId s (ex_intro _ doc Hdoc)) as (Hreg & _).
    eapply registries_agree_reg; [exact Hreg|].
    assert (Hquiet : Forall quiet [restore_scroll tabId])
      by (constructor; [apply restore_scroll_quiet | constructor]).
    destruct (renderDocument_among [restore_scroll tabId] tabId s Hquiet) as [Hd Hp].
    by apply registries_agree_render with s tabId.
  - unfold switchToTab_settled, switchToTab. rewrite Hdoc. exact H.
Qed.

Lemma registries_agree_constructor a d w p : registries_agree (constructor a d w p).
Proof. intros t. cbn. rewrite !lookup_empty. split; intros [? ?]; discriminate. Qed.

Lemma registries_agree_perform op s :
  registries_agree s -> registries_agree (perform op s).
Proof.
  intros H. destruct op; cbn [perform].
  - by apply registries_agree_loadDocument.
  - by apply registries_agree_renderDocument.
  - by apply registries_agree_closeDocument.
  - by apply registries_agree_switchToTab.
  - by apply registries_agree_setZoom.
  - by apply registries_agree_setRotation.
  - unfold setPageLayout, exec. rewrite run_await_call.
    by apply registries_agree_renderDocument.
  - apply (registries_agree_reg s); [apply goToPage_reg | exact H].
Qed.

(** C10 (amended): the two registries are empty after the constructor,
    and each operation, run to its end before another handler touches the
    registries, takes a state in which the tabs with a page-element entry
    are the tabs with a document to a state in which this holds again; so
    it holds after every sequence of such operations. *)
Theorem registries_agree_sequential :
  (forall a d w p, registries_agree (constructor a d w p)) /\
  (forall op s, registries_agree s -> registries_agree (perform op s)) /\
  (forall a d w p ops, registries_agree (perform_all ops (constructor a d w p))).
Proof.
  split; [exact registries_agree_constructor|].
  split; [exact registries_agree_perform|].
  intros a d w p ops. unfold perform_all.
  generalize (registries_agree_constructor a d w p). generalize (constructor a d w p).
  induction ops as [|op ops IH]; intros s H; cbn; [exact H|].
  apply IH, registries_agree_perform, H.
Qed.

(** C10 as stated fails: a render of tab 7 is in flight and has reached
    its eighth await, [await page.getTextContent()] (line 109) for the
    second and last page, when [closeDocument 7] is dispatched; once
    resumed, the render stores its two pages (line 65) for a tab that has
    no document any more. *)
Lemma registries_agree_counterexample :
  registries_agree loaded_state /\
  let s' := exec_among (replicate 7 id ++ [exec (closeDocument 7)])
              (renderDocument 7) loaded_state in
  documents (reg s') !! 7 = None /\
  length <$> pageElements (reg s') !! 7 = Some 2 /\
  ~ registries_agree s'.
Proof.
  split.
  - apply (registries_agree_perform (LoadDocument [Byte.x25] 7)),
      registries_agree_constructor.
  - assert (Hd : documents (reg (exec_among (replicate 7 id ++ [exec (closeDocument 7)])
                                   (renderDocument 7) loaded_state)) !! 7 = None)
      by (vm_compute; reflexivity).
    assert (Hp : length <$> pageElements
                   (reg (exec_among (replicate 7 id ++ [exec (closeDocument 7)])
                           (renderDocument 7) loaded_state)) !! 7 = Some 2)
      by (vm_compute; reflexivity).
    cbv zeta. split; [exact Hd|]. split; [exact Hp|].
    intros H. destruct (proj1 (H 7)) as [doc Hdoc].
    + destruct (pageElements _ !! 7) as [pages|]; [by eexists | discriminate Hp].
    + assert (Hn : @None PDFDocument = Some doc)
        by (etransitivity; [symmetry; exact Hd | exact Hdoc]).
      discriminate Hn.
Qed.

(** ** Current-page detection *)


Lemma currentPage_differs_spec tab pageNum :
  currentPage_differs tab pageNum = false <-> tab_currentPage tab = Some pageNum.
Proof.
  unfold currentPage_differs. destruct (tab_currentPage tab) as [p|].
  - rewrite negb_false_iff, Z.eqb_eq. split; congruence.
  - split; discriminate.
Qed.

Lemma run_detect_hit tabId pageNum s :
  run (tab <- getTab tabId ;;
       match tab with
       | Some tab =>
           if currentPage_differs tab pageNum then
             updateTab tabId (UpdCurrentPage pageNum) ;;;
             modify (with_dom (upd_pageNumberInput pageNum)) ;;;
             sidebar_updateCurrentPage tabId pageNum
           else Ret tt
       | None => Ret tt
       end) s = (page_detected tabId pageNum s, inr tt).
Proof.
  unfold page_detected. cbn.
  destruct (tabs (app s) !! tabId) as [tab|]; cbn; [|reflexivity].
  destruct (currentPage_differs tab pageNum) eqn:Hd; cbn.
  - destruct (decide (tab_currentPage tab = Some pageNum)) as [He|]; [|reflexivity].
    apply currentPage_differs_spec in He. congruence.
  - apply currentPage_differs_spec in Hd.
    destruct (decide (tab_currentPage tab = Some pageNum)); [reflexivity | contradiction].
Qed.



Lemma run_detectCurrentPage tabId s pages :
  pageElements (reg s) !! tabId = Some pages ->
  run (detectCurrentPage tabId) s = run (detect_loop tabId (center_of s) pages 0) s.
Proof.
  intros H. unfold detectCurrentPage. cbn -[detect_loop]. rewrite H. reflexivity.
Qed.

(** The detection changes the shell and the DOM only. *)
Lemma detect_loop_win tabId center pages : forall i0 s,
  win (fst (run (detect_loop tabId center pages i0) s)) = win s /\
  reg (fst (run (detect_loop tabId center pages i0) s)) = reg s /\
  pdfjs (fst (run (detect_loop tabId center pages i0) s)) = pdfjs s.
Proof.
  induction pages as [|page rest IH]; intros i0 s; [by repeat split|].
  cbn [detect_loop]. rewrite run_bind. cbn [gets run].
  destruct (contains_center (pageRect (dom s) (pc_node page)) center); [|apply IH].
  rewrite run_detect_hit. unfold page_detected.
  destruct (tabs (app s) !! tabId) as [tab|]; [|by repeat split].
  destruct (decide (tab_currentPage tab = Some (Z.of_nat i0 + 1)%Z)); by repeat split.
Qed.

Lemma detectCurrentPage_win tabId s :
  win (exec (detectCurrentPage tabId) s) = win s.
Proof.
  unfold exec.
  destruct (pageElements (reg s) !! tabId) as [pages|] eqn:H.
  - rewrite (run_detectCurrentPage _ _ _ H). apply detect_loop_win.
  - unfold detectCurrentPage. cbn. rewrite H. reflexivity.
Qed.

(** ** The scroll debounce *)



Lemma goToPage_win tabId pageNum s : win (exec (goToPage tabId pageNum) s) = win s.
Proof.
  unfold exec, goToPage. cbn.
  destruct (pageElements (reg s) !! tabId) as [pages|]; cbn; [|reflexivity].
  destruct (pageNum <? 1)%Z; cbn; [reflexivity|].
  destruct (Z.of_nat (length pages) <? pageNum)%Z; cbn; [reflexivity|].
  destruct (pages !! Z.to_nat (pageNum - 1)); reflexivity.
Qed.

Lemma same_timers_refl s : same_timers s s.
Proof. by repeat split. Qed.

Lemma renderDocument_among_timing env tabId s :
  Forall quiet env ->
  same_timers s (exec_among env (renderDocument tabId) s).
Proof.
  intros Henv. unfold exec_among, renderDocument. cbn -[render_pages].
  destruct (documents (reg s) !! tabId) as [doc|]; cbn -[render_pages];
    [|by repeat split].
  destruct (tabs (app s) !! tabId) as [tab|]; cbn -[render_pages];
    [|by repeat split].
  rewrite run_among_bind.
  match goal with
  | |- context [run_among env ?m ?s0] =>
      destruct (keeps_among m env s0 Henv (render_pages_keeps _ _ _ _ _))
        as [_ (_ & _ & _ & Ht & Hs & Hj)];
      destruct (run_among env m s0) as [[env' s'] [e|pages]]
  end; cbn in Ht, Hs, Hj |- *; by repeat split.
Qed.

(** The renderer's operations neither arm nor clear a timer, and write
    nothing in the journal. *)
Lemma perform_timing op s : same_timers s (perform op s).
Proof.
  assert (Hrender : forall tabId s0,
             same_timers s0 (fst (run (renderDocument tabId) s0))).
  { intros tabId s0. destruct (renderDocument_frame tabId s0) as [Hf _].
    repeat split; apply Hf. }
  destruct op; cbn [perform]; unfold exec.
  - destruct (getDocument (pdfjs s) data) as [e|body] eqn:Hload.
    + rewrite (run_loadDocument_fail _ _ _ _ Hload). by repeat split.
    + rewrite (run_loadDocument_ok _ _ _ _ Hload).
      specialize (Hrender tabId (registered tabId body s)).
      destruct (run (renderDocument tabId) (registered tabId body s)) as [s' [e|[]]];
        exact Hrender.
  - apply Hrender.
  - rewrite run_closeDocument. unfold closed.
    destruct (documents (reg s) !! tabId); by repeat split.
  - destruct (documents (reg s) !! tabId) as [doc|] eqn:Hdoc.
    + destruct (switchToTab_settled_among tabId s (ex_intro _ doc Hdoc))
        as (_ & _ & _ & Ht & Hs & Hj).
      unfold same_timers. rewrite Ht, Hs, Hj. apply renderDocument_among_timing.
      constructor; [apply restore_scroll_quiet | constructor].
    + unfold switchToTab_settled, switchToTab. rewrite Hdoc. by repeat split.
  - unfold setZoom. cbn -[renderDocument].
    destruct (tabs (app s) !! tabId); cbn -[renderDocument]; [|by repeat split].
    rewrite run_await_call.
    match goal with
    | |- context [run (renderDocument tabId) ?s0] =>
        destruct (Hrender tabId s0) as (Ht & Hs & Hj)
    end.
    unfold same_timers. rewrite Ht, Hs, Hj. by repeat split.
  - unfold setRotation. cbn -[renderDocument goToPage].
    destruct (tabs (app s) !! tabId) as [tab|]; cbn -[renderDocument goToPage];
      [|by repeat split].
    rewrite run_bind, run_await_call.
    specialize (Hrender tabId s).
    destruct (run (renderDocument tabId) s) as [s1 [e|[]]]; cbn in Hrender;
      [exact Hrender|].
    rewrite run_await_call.
    pose proof (goToPage_win tabId (or_default_Z (tab_currentPage tab) 1) s1) as Hw.
    unfold exec in Hw. unfold same_timers. rewrite Hw. exact Hrender.
  - unfold setPageLayout. rewrite run_await_call. apply Hrender.
  - pose proof (goToPage_win tabId pageNum s) as Hw. unfold exec in Hw.
    unfold same_timers. by rewrite Hw.
Qed.

Lemma exec_on_timeout tabId s :
  exec (on_timeout tabId) s =
    exec (detectCurrentPage tabId)
      (with_win (upd_journal (DetectRan (clock (win s)) tabId)) s).
Proof.
  unfold exec, on_timeout. rewrite run_bind. cbn [gets run].
  rewrite run_bind. cbn [modify run]. reflexivity.
Qed.

(** What the listener does with a scroll event. *)
Lemma dispatch_scroll y s : dispatch (UserScrolls y) s = scroll_handled y s.
Proof.
  cbn [dispatch]. unfold exec, on_scroll, scroll_handled. cbn.
  destruct (activeTab (app s)) as [id|]; reflexivity.
Qed.

(** What the firing of the timer the variable refers to does. *)
Lemma dispatch_timer s timer :
  scrollTimeout (win s) = Some timer ->
  dispatch TimerFires s =
    if Nat.leb (timer_due timer) (clock (win s)) then timer_fired timer s else s.
Proof.
  intros H. cbn [dispatch]. rewrite H.
  destruct (Nat.leb (timer_due timer) (clock (win s))); [|reflexivity].
  apply exec_on_timeout.
Qed.

Lemma timer_fired_win timer s :
  win (timer_fired timer s) =
    upd_journal (DetectRan (clock (win s)) (timer_tab timer))
      (upd_scrollTimeout None (win s)).
Proof. unfold timer_fired. by rewrite detectCurrentPage_win. Qed.

(** No stray timer is ever left behind: the listener clears the timer its
    variable refers to before it arms the next one. *)
Lemma dispatch_stray e s :
  strayTimers (win s) = [] -> strayTimers (win (dispatch e s)) = [].
Proof.
  intros Hs. destruct e as [y|ms| |i|t|op].
  - rewrite dispatch_scroll. unfold scroll_handled.
    by destruct (activeTab (app s)).
  - exact Hs.
  - destruct (scrollTimeout (win s)) as [timer|] eqn:Htimer.
    + rewrite (dispatch_timer _ _ Htimer).
      destruct (Nat.leb (timer_due timer) (clock (win s))); [|exact Hs].
      by rewrite timer_fired_win.
    + cbn [dispatch]. by rewrite Htimer.
  - cbn [dispatch]. by rewrite Hs.
  - exact Hs.
  - destruct (perform_timing op s) as (_ & Hst & _). cbn [dispatch]. by rewrite Hst.
Qed.

Lemma event_loop_stray events : forall s,
  strayTimers (win s) = [] -> strayTimers (win (event_loop events s)) = [].
Proof.
  unfold event_loop.
  induction events as [|e events IH]; intros s Hs; cbn; [exact Hs|].
  by apply IH, dispatch_stray.
Qed.







(** The centre line is computed in double precision: in a container whose
    top is at 0.1 and whose height is 0.4 it lies at 0.30000000000000004,
    above the exact sum of the two doubles, and a page that starts there
    contains it. *)
Example center_is_rounded :
  let rect := sample_rect (js_round (1 # 10)) (js_round (4 # 10)) in
  let page := sample_rect (js_round (3 # 10) + Qpower 2 (-54)) 100 in
  is_double (rect_top page) = true /\
  contains_center page (containerCenter rect) = true /\
  Qle_bool (rect_top page) (rect_top rect + rect_height rect / 2) = false.
Proof. vm_compute. repeat split. Qed.

(** The sample run: two scroll events are handled, one detection runs,
    100 ms after the second, and finds page 2. *)
Example sample_run :
  let s' := event_loop sample_events fresh_state in
  journal (win s') = [ScrollHandled 0 7; ScrollHandled 60 7; DetectRan 160 7] /\
  tab_currentPage <$> tabs (app s') !! 7 = Some (Some 2%Z) /\
  pageNumberInput (dom s') = Some 2%Z /\
  sidebar (app s') = [(7, 2%Z)].
Proof. vm_compute. repeat split. Qed.

(** ** Further properties of [renderDocument] *)

(** X1: for a tab without a registered document, or without a tab-manager
    entry, [renderDocument] returns at once: the viewer is not cleared and
    nothing else changes. *)
Theorem renderDocument_skips tabId s :
  documents (reg s) !! tabId = None \/ tabs (app s) !! tabId = None ->
  run (renderDocument tabId) s = (s, inr tt).
Proof.
  intros [H|H]; [by apply run_renderDocument_no_doc | by apply run_renderDocument_no_tab].
Qed.

Lemma renderDocument_skips_witness :
  run (renderDocument 8) loaded_state = (loaded_state, inr tt) /\
  viewer (dom loaded_state) <> [].
Proof.
  split.
  - apply renderDocument_skips. left. reflexivity.
  - vm_compute. discriminate.
Defined.

(** X2: whatever happens to its pages, [renderDocument] changes neither
    the document registry, nor the shell, the library, the alerts, the
    clock, the timer, the scroll position, the page-number input or what
    was scrolled into view, nor the page-element entry of any other tab. *)
Theorem renderDocument_changes_only tabId s :
  render_frame s (exec (renderDocument tabId) s) /\
  forall t, t <> tabId ->
    pageElements (reg (exec (renderDocument tabId) s)) !! t = pageElements (reg s) !! t.
Proof.
  unfold exec. destruct (renderDocument_frame tabId s) as [Hf Hp].
  split; [exact Hf|]. intros t Hne.
  destruct Hp as [-> | (pages & _ & ->)]; [reflexivity|].
  by rewrite lookup_insert_ne.
Qed.

(** ** How a page fails *)

(** X3: [createPageContainer] throws in three ways.  A page that cannot be
    fetched throws its error and changes nothing; this error comes first,
    before the tab is looked at.  A fetched page for a tab the tab manager
    does not know throws a [TypeError] and changes nothing.  A page that
    cannot be rasterised throws its error after the container element has
    been created; nothing is logged. *)
Theorem createPageContainer_failures doc pageNum tabId s :
  (forall e, getPage doc pageNum = inl e ->
     run (createPageContainer doc pageNum tabId) s = (s, inl e)) /\
  (forall page, getPage doc pageNum = inr page ->
     tabs (app s) !! tabId = None ->
     run (createPageContainer doc pageNum tabId) s =
       (s, inl "TypeError: Cannot read properties of undefined (reading 'zoom')")) /\
  (forall page tab e, getPage doc pageNum = inr page ->
     tabs (app s) !! tabId = Some tab ->
     page_render page = Some e ->
     run (createPageContainer doc pageNum tabId) s =
       (with_dom (upd_next_node (S (next_node (dom s)))) s, inl e)).
Proof.
  split; [|split].
  - intros e H. unfold createPageContainer. cbn. rewrite H. reflexivity.
  - intros page H Htab. unfold createPageContainer. cbn. rewrite H, Htab. reflexivity.
  - intros page tab e H Htab Hrender. unfold createPageContainer. cbn.
    rewrite H, Htab. cbn. rewrite Hrender. reflexivity.
Qed.

Lemma createPageContainer_failures_witness :
  run (createPageContainer (new_handle fresh_state (body_of [good_page; broken_page]))
         3 7) fresh_state = (fresh_state, inl "Invalid page request.") /\
  run (createPageContainer (new_handle fresh_state (body_of [good_page; broken_page]))
         1 8) fresh_state =
    (fresh_state, inl "TypeError: Cannot read properties of undefined (reading 'zoom')") /\
  snd (run (createPageContainer (new_handle fresh_state (body_of [good_page; broken_page]))
              2 7) fresh_state) = inl "Bad content stream".
Proof.
  pose proof (createPageContainer_failures
                (new_handle fresh_state (body_of [good_page; broken_page]))) as H.
  split; [|split].
  - exact (proj1 (H 3 7 fresh_state) _ eq_refl).
  - exact (proj1 (proj2 (H 1 8 fresh_state)) good_page eq_refl eq_refl).
  - rewrite (proj2 (proj2 (H 2 7 fresh_state)) broken_page sample_tab _
               eq_refl eq_refl eq_refl).
    reflexivity.
Defined.



(** ** The view-state mutators *)

Lemma createPageContainer_twoPage doc pageNum tabId s :
  viewer_twoPage (dom (fst (run (createPageContainer doc pageNum tabId) s))) =
    viewer_twoPage (dom s).
Proof.
  unfold createPageContainer. cbn.
  destruct (getPage doc pageNum) as [e|page]; cbn; [reflexivity|].
  destruct (tabs (app s) !! tabId) as [tab|]; cbn; [|reflexivity].
  destruct (page_render page) as [e|]; cbn; [reflexivity|].
  destruct (page_getTextContent page) as [e|]; cbn; [reflexivity|].
  destruct (page_textLayer page) as [e|]; reflexivity.
Qed.

Lemma render_pages_twoPage doc tabId pageNums : forall pages s,
  viewer_twoPage (dom (fst (run (render_pages doc tabId pageNums pages) s))) =
    viewer_twoPage (dom s).
Proof.
  induction pageNums as [|pageNum rest IH]; intros pages s; cbn -[createPageContainer];
    [reflexivity|].
  rewrite run_bind, run_await_call.
  pose proof (createPageContainer_twoPage doc pageNum tabId s) as H.
  destruct (run (createPageContainer doc pageNum tabId) s) as [s1 [e|pc]];
    cbn in H |- *; [exact H|].
  rewrite IH. exact H.
Qed.

(** X5: [setPageLayout] never uses the layout it is given: after the call
    the viewer has the two-page class exactly when the layout stored for
    the tab is ['two-page'], and the stored tab state is unchanged. *)
Theorem setPageLayout_follows_stored_layout tabId layout s doc tab :
  documents (reg s) !! tabId = Some doc ->
  tabs (app s) !! tabId = Some tab ->
  viewer_twoPage (dom (exec (setPageLayout tabId layout) s)) =
    String.eqb (tab_pageLayout tab) "two-page" /\
  tabs (app (exec (setPageLayout tabId layout) s)) = tabs (app s).
Proof.
  intros Hdoc Htab. unfold exec, setPageLayout. rewrite run_await_call.
  destruct (renderDocument_frame tabId s) as [Hf _].
  split; [|by rewrite (frame_app _ _ Hf)].
  rewrite (run_renderDocument _ _ doc tab Hdoc Htab).
  pose proof (render_pages_twoPage doc tabId (seq 1 (numPages doc)) [] (cleared tab s))
    as H.
  destruct (run (render_pages doc tabId (seq 1 (numPages doc)) []) (cleared tab s))
    as [s' [e|pages]]; exact H.
Qed.

Lemma setPageLayout_follows_stored_layout_witness :
  viewer_twoPage (dom (exec (setPageLayout 7 "two-page") loaded_state)) = false /\
  tabs (app (exec (setPageLayout 7 "two-page") loaded_state)) = tabs (app loaded_state).
Proof.
  exact (setPageLayout_follows_stored_layout 7 "two-page" loaded_state
           {| doc_id := 0; doc_body := body_of [good_page; good_page] |} sample_tab
           eq_refl eq_refl).
Defined.

Lemma rendered_pages_scales ratio tab doc tabId node pageNums pages :
  rendered_pages ratio tab doc tabId node pageNums pages ->
  flat_map
    (fun pc =>
       omap (fun n => match n with
                      | CanvasNode c => Some (vp_scale (canvas_painted c))
                      | _ => None
                      end) (pc_children pc)) pages =
    replicate (length pageNums) (or_default_Q (tab_zoom tab) 1).
Proof. induction 1; cbn; [reflexivity | by f_equal]. Qed.

(** X6: for a tab with a tab-manager entry and a document whose pages all
    render, [setZoom] stores the zoom in the tab and registers pages that
    are all painted at that zoom; a zoom of 0 is stored as 0 but painted
    at scale 1. *)
Theorem setZoom_renders_at_zoom tabId zoom s doc tab :
  documents (reg s) !! tabId = Some doc ->
  tabs (app s) !! tabId = Some tab ->
  renders (doc_body doc) ->
  snd (run (setZoom tabId zoom) s) = inr tt /\
  tabs (app (exec (setZoom tabId zoom) s)) !! tabId =
    Some (apply_update (UpdZoom zoom) tab) /\
  painted_scales (exec (setZoom tabId zoom) s) tabId =
    replicate (numPages doc) (effective_scale zoom).
Proof.
  intros Hdoc Htab Hok. unfold exec, setZoom. cbn -[renderDocument].
  rewrite Htab. cbn -[renderDocument]. rewrite run_await_call.
  set (s1 := with_app _ s).
  assert (Htab1 : tabs (app s1) !! tabId = Some (apply_update (UpdZoom zoom) tab))
    by (subst s1; cbn; by rewrite lookup_alter_eq, Htab).
  destruct (run_renderDocument_renders tabId s1 doc _ Hdoc Htab1 Hok)
    as (s' & pages & Hrun & Hpages & _ & Hreg & _).
  destruct (renderDocument_frame tabId s1) as [Hf _].
  rewrite Hrun in Hf |- *. cbn in Hf |- *.
  split; [reflexivity|]. split; [by rewrite (frame_app _ _ Hf)|].
  unfold painted_scales. rewrite Hreg, lookup_insert_eq.
  rewrite (rendered_pages_scales _ _ _ _ _ _ _ Hpages), length_seq. reflexivity.
Qed.

Lemma setZoom_renders_at_zoom_witness :
  snd (run (setZoom 7 0) loaded_state) = inr tt /\
  tabs (app (exec (setZoom 7 0) loaded_state)) !! 7 =
    Some (apply_update (UpdZoom 0) sample_tab) /\
  painted_scales (exec (setZoom 7 0) loaded_state) 7 = [1%Q; 1%Q].
Proof.
  apply (setZoom_renders_at_zoom 7 0 loaded_state
           {| doc_id := 0; doc_body := body_of [good_page; good_page] |} sample_tab).
  - reflexivity.
  - reflexivity.
  - intros n Hn. exists good_page.
    assert (n = 1 \/ n = 2) as [-> | ->] by (cbn in Hn; lia); split; reflexivity.
Defined.

(** X7: for a tab the tab manager does not know, [setZoom], [setRotation]
    and [setPageLayout] change nothing, also when a document is registered
    for the tab: no zoom is stored and nothing is rendered. *)
Theorem mutators_skip_unknown_tab tabId s :
  tabs (app s) !! tabId = None ->
  (forall zoom, run (setZoom tabId zoom) s = (s, inr tt)) /\
  (forall rotation, run (setRotation tabId rotation) s = (s, inr tt)) /\
  (forall layout, run (setPageLayout tabId layout) s = (s, inr tt)).
Proof.
  intros Htab. split; [|split].
  - intros zoom. unfold setZoom. cbn. rewrite Htab. reflexivity.
  - intros rotation. unfold setRotation. cbn. rewrite Htab. reflexivity.
  - intros layout. unfold setPageLayout.
    rewrite run_await_call. by apply run_renderDocument_no_tab.
Qed.

Lemma mutators_skip_unknown_tab_witness :
  run (setZoom 8 2) loaded_state = (loaded_state, inr tt) /\
  run (setRotation 8 90) loaded_state = (loaded_state, inr tt) /\
  run (setPageLayout 8 "two-page") loaded_state = (loaded_state, inr tt).
Proof.
  destruct (mutators_skip_unknown_tab 8 loaded_state eq_refl) as (Hz & Hr & Hl).
  split; [apply Hz | split; [apply Hr | apply Hl]].
Defined.

(** ** Going to a page *)

Lemma run_goToPage_found tabId pageNum s pages pc :
  pageElements (reg s) !! tabId = Some pages ->
  (1 <= pageNum)%Z ->
  pages !! Z.to_nat (pageNum - 1) = Some pc ->
  run (goToPage tabId pageNum) s =
    (set_current_page tabId pageNum (with_dom (upd_scrolledIntoView (pc_node pc)) s),
     inr tt).
Proof.
  intros Hpages Hlo Hpc. unfold goToPage. cbn. rewrite Hpages. cbn.
  apply lookup_lt_Some in Hpc as Hlt.
  assert (Hlo' : (pageNum <? 1)%Z = false) by lia.
  assert (Hhi : (Z.of_nat (length pages) <? pageNum)%Z = false) by lia.
  rewrite Hlo', Hhi. cbn. rewrite Hpc. reflexivity.
Qed.

(** X8: for a page number within the tab's registered pages, [goToPage]
    scrolls the container of that page into view, then sets the tab's
    current page, the page-number input and the sidebar to that number;
    nothing else changes. *)
Theorem goToPage_in_range_effect tabId pageNum s :
  page_in_range s tabId pageNum ->
  exists pages pc,
    pageElements (reg s) !! tabId = Some pages /\
    pages !! Z.to_nat (pageNum - 1) = Some pc /\
    run (goToPage tabId pageNum) s =
      (set_current_page tabId pageNum (with_dom (upd_scrolledIntoView (pc_node pc)) s),
       inr tt).
Proof.
  intros (pages & Hpages & Hlo & Hhi).
  destruct (pages !! Z.to_nat (pageNum - 1)) as [pc|] eqn:Hpc.
  - exists pages, pc. split; [exact Hpages|]. split; [exact Hpc|].
    by apply run_goToPage_found with pages.
  - apply lookup_ge_None in Hpc. lia.
Qed.

Lemma goToPage_in_range_effect_witness :
  exists pages pc,
    pageElements (reg loaded_state) !! 7 = Some pages /\
    pages !! 1 = Some pc /\
    run (goToPage 7 2) loaded_state =
      (set_current_page 7 2 (with_dom (upd_scrolledIntoView (pc_node pc)) loaded_state),
       inr tt).
Proof.
  apply (goToPage_in_range_effect 7 2 loaded_state).
  eexists. split; [reflexivity|]. cbn. lia.
Defined.

(** X9: for a tab whose pages all render and whose current page [p]
    (page 1 when none is stored, or 0) is one of them, [setRotation]
    scrolls the freshly built container of page [p] into view and reports
    [p] again to the tab manager, the page-number input and the sidebar. *)
Theorem setRotation_restores_page tabId rotation s doc tab :
  documents (reg s) !! tabId = Some doc ->
  tabs (app s) !! tabId = Some tab ->
  renders (doc_body doc) ->
  (1 <= or_default_Z (tab_currentPage tab) 1 <= Z.of_nat (numPages doc))%Z ->
  snd (run (setRotation tabId rotation) s) = inr tt /\
  scrolledIntoView (dom (exec (setRotation tabId rotation) s)) =
    (scrolledIntoView (dom s) ++
       [next_node (dom s) + Z.to_nat (or_default_Z (tab_currentPage tab) 1 - 1)])%list /\
  tab_currentPage <$> tabs (app (exec (setRotation tabId rotation) s)) !! tabId =
    Some (Some (or_default_Z (tab_currentPage tab) 1)) /\
  pageNumberInput (dom (exec (setRotation tabId rotation) s)) =
    Some (or_default_Z (tab_currentPage tab) 1) /\
  sidebar (app (exec (setRotation tabId rotation) s)) =
    (sidebar (app s) ++ [(tabId, or_default_Z (tab_currentPage tab) 1)])%list.
Proof.
  intros Hdoc Htab Hok Hp. unfold exec, setRotation. cbn -[renderDocument goToPage].
  rewrite Htab. cbn -[renderDocument goToPage].
  set (p := or_default_Z (tab_currentPage tab) 1) in *.
  rewrite run_bind, run_await_call.
  destruct (run_renderDocument_renders tabId s doc tab Hdoc Htab Hok)
    as (s1 & pages & Hrun & Hpages & _ & Hreg & _).
  destruct (renderDocument_frame tabId s) as [Hf _].
  rewrite Hrun in Hf |- *. cbn in Hf. rewrite run_await_call.
  assert (Hnodes := rendered_pages_node _ _ _ _ _ _ _ Hpages).
  rewrite length_seq in Hnodes.
  assert (Hlookup : (pc_node <$> pages) !! Z.to_nat (p - 1) =
                    Some (next_node (dom s) + Z.to_nat (p - 1))).
  { rewrite Hnodes. apply lookup_seq. split; [reflexivity | lia]. }
  rewrite list_lookup_fmap in Hlookup.
  destruct (pages !! Z.to_nat (p - 1)) as [pc|] eqn:Hpc; [|discriminate].
  injection Hlookup as Hnode.
  rewrite (run_goToPage_found tabId p s1 pages pc); [|by rewrite Hreg, lookup_insert_eq|lia|exact Hpc].
  unfold set_current_page. cbn.
  rewrite (frame_scrolled _ _ Hf), (frame_app _ _ Hf), Hnode.
  repeat split. by rewrite lookup_alter_eq, Htab.
Qed.

Lemma setRotation_restores_page_witness :
  snd (run (setRotation 7 90) loaded_state) = inr tt /\
  scrolledIntoView (dom (exec (setRotation 7 90) loaded_state)) = [2] /\
  tab_currentPage <$> tabs (app (exec (setRotation 7 90) loaded_state)) !! 7 =
    Some (Some 1%Z) /\
  pageNumberInput (dom (exec (setRotation 7 90) loaded_state)) = Some 1%Z /\
  sidebar (app (exec (setRotation 7 90) loaded_state)) = [(7, 1%Z)].
Proof.
  apply (setRotation_restores_page 7 90 loaded_state
           {| doc_id := 0; doc_body := body_of [good_page; good_page] |} sample_tab).
  - reflexivity.
  - reflexivity.
  - intros n Hn. exists good_page.
    assert (n = 1 \/ n = 2) as [-> | ->] by (cbn in Hn; lia); split; reflexivity.
  - cbn. lia.
Defined.

(** ** Closing and loading *)

Lemma closed_twice tabId s : closed tabId (closed tabId s) = closed tabId s.
Proof.
  unfold closed at 1.
  assert (Hnone : documents (reg (closed tabId s)) !! tabId = None).
  { unfold closed. cbn. apply lookup_delete_eq. }
  rewrite Hnone.
  unfold closed. destruct (documents (reg s) !! tabId) as [doc|];
    destruct s as [[docs pages] d a w p]; unfold with_reg, upd_pageElements,
      upd_documents, with_pdfjs; cbn; by rewrite !delete_delete_eq.
Qed.

(** X10: closing a tab twice is closing it once: the second
    [closeDocument] finds no document, destroys nothing and leaves the
    state as the first call left it. *)
Theorem closeDocument_twice tabId s :
  run (closeDocument tabId) (exec (closeDocument tabId) s) =
    (exec (closeDocument tabId) s, inr tt) /\
  destroyed (pdfjs (exec (closeDocument tabId) (exec (closeDocument tabId) s))) =
    destroyed (pdfjs (exec (closeDocument tabId) s)).
Proof.
  unfold exec. rewrite run_closeDocument. cbn [fst].
  rewrite !run_closeDocument. cbn [fst]. rewrite closed_twice. by split.
Qed.

Lemma render_pages_returns_all doc tabId pageNums : forall pages s s' pages',
  run (render_pages doc tabId pageNums pages) s = (s', inr pages') ->
  length pages' = length pages + length pageNums.
Proof.
  induction pageNums as [|pageNum rest IH]; intros pages s s' pages' H;
    cbn -[createPageContainer] in H.
  - injection H as _ <-. cbn. lia.
  - rewrite run_bind, run_await_call in H.
    destruct (run (createPageContainer doc pageNum tabId) s) as [s1 [e|pc]];
      [discriminate|].
    cbn in H. apply IH in H. rewrite length_app in H. cbn in *. lia.
Qed.

(** The state a load leaves once the bytes have been read as a document. *)
Lemma loadDocument_ok_state data tabId s body :
  getDocument (pdfjs s) data = inr body ->
  documents (reg (exec (loadDocument data tabId) s)) =
    <[tabId := new_handle s body]> (documents (reg s)) /\
  pdfjs (exec (loadDocument data tabId) s) = upd_new_handle tabId (pdfjs s) /\
  app (exec (loadDocument data tabId) s) = upd_updateUI (app s) /\
  exists pages,
    pageElements (reg (exec (loadDocument data tabId) s)) =
      <[tabId := pages]> (pageElements (reg s)) /\
    (pages = [] \/
     snd (run (loadDocument data tabId) s) = inr (new_handle s body) /\
     length pages = body_numPages body).
Proof.
  intros Hload. unfold exec. rewrite (run_loadDocument_ok _ _ _ _ Hload).
  set (s0 := registered tabId body s).
  destruct (renderDocument_frame tabId s0) as [Hf _].
  assert (Hpages : exists pages,
             pageElements (reg (fst (run (renderDocument tabId) s0))) =
               <[tabId := pages]> (pageElements (reg s)) /\
             (pages = [] \/
              snd (run (renderDocument tabId) s0) = inr tt /\
              length pages = body_numPages body)).
  { destruct (tabs (app s0) !! tabId) as [tab|] eqn:Htab.
    - rewrite (run_renderDocument tabId s0 (new_handle s body) tab);
        [|subst s0; cbn; apply lookup_insert_eq | exact Htab].
      destruct (render_pages_frame (new_handle s body) tabId
                  (seq 1 (numPages (new_handle s body))) [] (cleared tab s0)) as [_ Hp].
      destruct (run (render_pages (new_handle s body) tabId
                       (seq 1 (numPages (new_handle s body))) []) (cleared tab s0))
        as [s' [e|pages]] eqn:Hrun; cbn in Hp |- *.
      + exists []. split; [exact Hp | by left].
      + exists pages. split.
        * rewrite Hp. cbn. apply insert_insert_eq.
        * right. split; [reflexivity|].
          apply render_pages_returns_all in Hrun. rewrite length_seq in Hrun.
          exact Hrun.
    - rewrite run_renderDocument_no_tab by exact Htab.
      exists []. split; [reflexivity | by left]. }
  destruct (run (renderDocument tabId) s0) as [s' [e|[]]]; cbn in Hf, Hpages |- *.
  - split; [by rewrite (frame_documents _ _ Hf)|].
    split; [by rewrite (frame_pdfjs _ _ Hf)|].
    split; [by rewrite (frame_app _ _ Hf)|].
    destruct Hpages as (pages & Hp & [-> | [Hr _]]); [|discriminate].
    exists []. split; [exact Hp | by left].
  - split; [by rewrite (frame_documents _ _ Hf)|].
    split; [by rewrite (frame_pdfjs _ _ Hf)|].
    split; [by rewrite (frame_app _ _ Hf)|].
    destruct Hpages as (pages & Hp & Hcase). exists pages. split; [exact Hp|].
    destruct Hcase as [-> | [_ Hlen]]; [by left | right; by split].
Qed.

Lemma createPageContainer_returns_page doc pageNum tabId s s' pc :
  run (createPageContainer doc pageNum tabId) s = (s', inr pc) -> pc_page pc = pageNum.
Proof.
  unfold createPageContainer. cbn.
  destruct (getPage doc pageNum) as [e|page]; cbn; [discriminate|].
  destruct (tabs (app s) !! tabId) as [tab|]; cbn; [|discriminate].
  destruct (page_render page) as [e|]; cbn; [discriminate|].
  destruct (page_getTextContent page) as [e|]; cbn; [by intros [= _ <-]|].
  destruct (page_textLayer page) as [e|]; by intros [= _ <-].
Qed.

Lemma render_pages_returns_pages doc tabId pageNums : forall pages s s' pages',
  run (render_pages doc tabId pageNums pages) s = (s', inr pages') ->
  pc_page <$> pages' = ((pc_page <$> pages) ++ pageNums)%list.
Proof.
  induction pageNums as [|pageNum rest IH]; intros pages s s' pages' H;
    cbn -[createPageContainer] in H.
  - injection H as _ <-. by rewrite app_nil_r.
  - rewrite run_bind, run_await_call in H.
    destruct (run (createPageContainer doc pageNum tabId) s) as [s1 [e|pc]] eqn:Hpc;
      [discriminate|].
    cbn in H. apply IH in H. rewrite H, fmap_app, <- app_assoc. cbn.
    by rewrite (createPageContainer_returns_page _ _ _ _ _ _ Hpc).
Qed.

(** The page-element entry a load leaves once the bytes have been read as
    a document. *)
Lemma loadDocument_pages data tabId s body :
  getDocument (pdfjs s) data = inr body ->
  exists pages,
    pageElements (reg (exec (loadDocument data tabId) s)) =
      <[tabId := pages]> (pageElements (reg s)) /\
    match snd (run (loadDocument data tabId) s) with
    | inr pdfDoc =>
        pdfDoc = new_handle s body /\
        match tabs (app s) !! tabId with
        | Some _ => pc_page <$> pages = seq 1 (body_numPages body)
        | None => pages = []
        end
    | inl e =>
        snd (run (renderDocument tabId) (registered tabId body s)) = inl e /\
        pages = []
    end.
Proof.
  intros Hload. unfold exec. rewrite (run_loadDocument_ok _ _ _ _ Hload).
  set (s0 := registered tabId body s).
  assert (Htabs : tabs (app s0) !! tabId = tabs (app s) !! tabId) by reflexivity.
  destruct (tabs (app s) !! tabId) as [tab|] eqn:Htab.
  - rewrite (run_renderDocument tabId s0 (new_handle s body) tab);
      [|subst s0; cbn; apply lookup_insert_eq | exact Htabs].
    destruct (render_pages_frame (new_handle s body) tabId
                (seq 1 (numPages (new_handle s body))) [] (cleared tab s0)) as [_ Hp].
    destruct (run (render_pages (new_handle s body) tabId
                     (seq 1 (numPages (new_handle s body))) []) (cleared tab s0))
      as [s' [e|pages]] eqn:Hrun; cbn in Hp |- *.
    + exists []. split; [exact Hp | by split].
    + exists pages. split; [rewrite Hp; cbn; apply insert_insert_eq|].
      split; [reflexivity|].
      apply render_pages_returns_pages in Hrun. exact Hrun.
  - rewrite run_renderDocument_no_tab by exact Htabs.
    exists []. by repeat split.
Qed.

(** X11: when the bytes are read as a document, [loadDocument] refreshes
    the UI exactly once and leaves the tab with a page-element entry in
    every case.  When the call returns, it returns the new handle, and the
    entry holds the containers of pages 1 to [numPages], in this order, if
    the tab manager knows the tab, and is empty if it does not.  When the
    call throws, it is the first render that threw this error, and the
    entry is the empty sequence stored before the render. *)
Theorem loadDocument_registers_pages data tabId s body :
  getDocument (pdfjs s) data = inr body ->
  updateUI_calls (app (exec (loadDocument data tabId) s)) = S (updateUI_calls (app s)) /\
  exists pages,
    pageElements (reg (exec (loadDocument data tabId) s)) =
      <[tabId := pages]> (pageElements (reg s)) /\
    match snd (run (loadDocument data tabId) s) with
    | inr pdfDoc =>
        pdfDoc = new_handle s body /\
        match tabs (app s) !! tabId with
        | Some _ =>
            pc_page <$> pages = seq 1 (body_numPages body) /\
            length pages = body_numPages body
        | None => pages = []
        end
    | inl e =>
        snd (run (renderDocument tabId) (registered tabId body s)) = inl e /\
        pages = []
    end.
Proof.
  intros Hload.
  destruct (loadDocument_ok_state data tabId s body Hload) as (_ & _ & Happ & _).
  split; [by rewrite Happ|].
  destruct (loadDocument_pages data tabId s body Hload) as (pages & Hp & Hcase).
  exists pages. split; [exact Hp|].
  destruct (snd (run (loadDocument data tabId) s)) as [e|pdfDoc]; [exact Hcase|].
  destruct Hcase as [-> Hcase]. split; [reflexivity|].
  destruct (tabs (app s) !! tabId); [|exact Hcase].
  split; [exact Hcase|].
  rewrite <- (length_fmap pc_page), Hcase. apply length_seq.
Qed.

Lemma loadDocument_registers_pages_witness :
  updateUI_calls (app damaged_state) = 1 /\
  exists pages,
    pageElements (reg damaged_state) = <[7 := pages]> (pageElements (reg fresh_state)) /\
    match snd (run (loadDocument [Byte.x21] 7) fresh_state) with
    | inr pdfDoc =>
        pdfDoc = new_handle fresh_state (body_of [good_page; broken_page]) /\
        match tabs (app fresh_state) !! 7 with
        | Some _ => pc_page <$> pages = seq 1 2 /\ length pages = 2
        | None => pages = []
        end
    | inl e =>
        snd (run (renderDocument 7)
               (registered 7 (body_of [good_page; broken_page]) fresh_state)) = inl e /\
        pages = []
    end.
Proof.
  exact (loadDocument_registers_pages [Byte.x21] 7 fresh_state
           (body_of [good_page; broken_page]) eq_refl).
Defined.

(** X12: loading a document for a tab and then closing the tab removes
    the tab from both registries and destroys exactly the handle that load
    produced, whether or not the first render succeeded. *)
Theorem load_then_close data tabId s body :
  getDocument (pdfjs s) data = inr body ->
  documents (reg (exec (closeDocument tabId) (exec (loadDocument data tabId) s))) =
    delete tabId (documents (reg s)) /\
  pageElements (reg (exec (closeDocument tabId) (exec (loadDocument data tabId) s))) =
    delete tabId (pageElements (reg s)) /\
  destroyed (pdfjs (exec (closeDocument tabId) (exec (loadDocument data tabId) s))) =
    (destroyed (pdfjs s) ++ [next_doc (pdfjs s)])%list.
Proof.
  intros Hload.
  destruct (loadDocument_ok_state data tabId s body Hload)
    as (Hdocs & Hpdfjs & _ & pages & Hpages & _).
  set (s1 := exec (loadDocument data tabId) s) in *.
  unfold exec. rewrite run_closeDocument. unfold closed.
  assert (Hdoc : documents (reg s1) !! tabId = Some (new_handle s body))
    by (rewrite Hdocs; apply lookup_insert_eq).
  rewrite Hdoc. cbn. rewrite Hdocs, Hpages, Hpdfjs, !delete_insert_eq. by repeat split.
Qed.

Lemma load_then_close_witness :
  documents (reg (exec (closeDocument 7) damaged_state)) = delete 7 ∅ /\
  pageElements (reg (exec (closeDocument 7) damaged_state)) = delete 7 ∅ /\
  destroyed (pdfjs (exec (closeDocument 7) damaged_state)) = [0].
Proof.
  exact (load_then_close [Byte.x21] 7 fresh_state (body_of [good_page; broken_page])
           eq_refl).
Defined.

(** X13: [getDocument] is a pure lookup: it returns the handle
    [loadDocument] registered for the tab (also when the first render
    threw), nothing once the tab is closed, and never changes the state. *)
Theorem getDocument_lookup tabId s :
  (forall data body, getDocument (pdfjs s) data = inr body ->
     snd (run (getDocument_of tabId) (exec (loadDocument data tabId) s)) =
       inr (Some (new_handle s body))) /\
  snd (run (getDocument_of tabId) (exec (closeDocument tabId) s)) = inr None /\
  fst (run (getDocument_of tabId) s) = s.
Proof.
  split; [|split].
  - intros data body Hload.
    destruct (loadDocument_ok_state data tabId s body Hload) as (Hdocs & _).
    unfold getDocument_of, gets. cbn [run snd].
    rewrite Hdocs, lookup_insert_eq. reflexivity.
  - unfold exec. rewrite run_closeDocument. unfold getDocument_of, closed. cbn.
    by rewrite lookup_delete_eq.
  - reflexivity.
Qed.

(** ** Switching tabs *)

Lemma start_renderDocument_pending tabId s doc tab :
  documents (reg s) !! tabId = Some doc ->
  tabs (app s) !! tabId = Some tab ->
  1 <= numPages doc ->
  exists k, start (renderDocument tabId) s = (cleared tab s, Pending k).
Proof.
  intros Hdoc Htab Hn. unfold renderDocument. cbn -[seq]. rewrite Hdoc. cbn -[seq].
  rewrite Htab. cbn -[seq].
  destruct (numPages doc) as [|n]; [lia|]. cbn. eexists. reflexivity.
Qed.

Lemma start_renderDocument_empty tabId s doc tab :
  documents (reg s) !! tabId = Some doc ->
  tabs (app s) !! tabId = Some tab ->
  numPages doc = 0 ->
  start (renderDocument tabId) s =
    (with_reg (upd_pageElements (insert tabId [])) (cleared tab s), Settled (inr tt)).
Proof.
  intros Hdoc Htab Hn. unfold renderDocument. cbn -[seq]. rewrite Hdoc. cbn -[seq].
  rewrite Htab. cbn -[seq]. rewrite Hn. reflexivity.
Qed.

(** X14: for a tab without a registered document, [switchToTab] replaces
    the viewer's content by the empty-state placeholder and does nothing
    else: no render is started and the scroll position is not restored,
    even if the tab has one saved. *)
Theorem switchToTab_without_document tabId s :
  documents (reg s) !! tabId = None ->
  switchToTab tabId s = (with_dom (upd_viewer (fun _ => [EmptyState])) s, None) /\
  scrollTop (dom (switchToTab_settled tabId s)) = scrollTop (dom s) /\
  viewer (dom (switchToTab_settled tabId s)) = [EmptyState].
Proof.
  intros Hdoc. unfold switchToTab_settled, switchToTab. rewrite Hdoc. by repeat split.
Qed.

Lemma switchToTab_without_document_witness :
  switchToTab 8 loaded_state =
    (with_dom (upd_viewer (fun _ => [EmptyState])) loaded_state, None) /\
  scrollTop (dom (switchToTab_settled 8 loaded_state)) = scrollTop (dom loaded_state) /\
  viewer (dom (switchToTab_settled 8 loaded_state)) = [EmptyState].
Proof. exact (switchToTab_without_document 8 loaded_state eq_refl). Defined.

(** X15: [switchToTab] does not wait for the render it starts.  For a tab
    with a tab-manager entry and a document of at least one page, the
    method returns with the render still pending: the scroll position has
    been restored over an emptied viewer, and the page-element registry
    still holds the tab's previous pages. *)
Theorem switchToTab_returns_before_pages tabId s doc tab :
  documents (reg s) !! tabId = Some doc ->
  tabs (app s) !! tabId = Some tab ->
  1 <= numPages doc ->
  exists k,
    switchToTab tabId s = (restore_scroll tabId (cleared tab s), Some k) /\
    viewer (dom (restore_scroll tabId (cleared tab s))) = [] /\
    reg (restore_scroll tabId (cleared tab s)) = reg s.
Proof.
  intros Hdoc Htab Hn.
  destruct (start_renderDocument_pending tabId s doc tab Hdoc Htab Hn) as [k Hk].
  exists k. unfold switchToTab. rewrite Hdoc, Hk. split; [reflexivity|].
  unfold restore_scroll. cbn. rewrite Htab.
  destruct (tab_scrollPosition tab) as [y|]; [|by split].
  destruct (Qeq_bool y 0); by split.
Qed.

Lemma switchToTab_returns_before_pages_witness :
  exists k,
    switchToTab 7 loaded_state =
      (restore_scroll 7 (cleared sample_tab loaded_state), Some k) /\
    viewer (dom (restore_scroll 7 (cleared sample_tab loaded_state))) = [] /\
    reg (restore_scroll 7 (cleared sample_tab loaded_state)) = reg loaded_state.
Proof.
  apply (switchToTab_returns_before_pages 7 loaded_state
           {| doc_id := 0; doc_body := body_of [good_page; good_page] |} sample_tab).
  - reflexivity.
  - reflexivity.
  - cbn. lia.
Defined.

(** X16: the scroll position the listener saves for the active tab is the
    one [switchToTab] writes back to the container, except that a saved
    position of 0 is not written back: the container then stays where the
    previous tab left it. *)
Theorem scroll_position_round_trip tabId y y0 s tab doc :
  activeTab (app s) = Some tabId ->
  tabs (app s) !! tabId = Some tab ->
  documents (reg s) !! tabId = Some doc ->
  tab_scrollPosition <$> tabs (app (dispatch (UserScrolls y) s)) !! tabId =
    Some (Some y) /\
  scrollTop (dom (fst (switchToTab tabId
                         (with_dom (upd_scrollTop y0) (dispatch (UserScrolls y) s))))) =
    if Qeq_bool y 0 then y0 else y.
Proof.
  intros Hactive Htab Hdoc.
  assert (Hs1 : dispatch (UserScrolls y) s =
                with_win (upd_scrollTimeout
                            (Some {| timer_due := clock (win s) + 100;
                                     timer_tab := tabId |}))
                  (with_win (upd_scrollTimeout None)
                     (with_win (upd_journal (ScrollHandled (clock (win s)) tabId))
                        (with_app (upd_tabs (alter (apply_update (UpdScrollPosition y))
                                               tabId))
                           (with_dom (upd_scrollTop y) s))))).
  { cbn [dispatch]. unfold exec, on_scroll. cbn. rewrite Hactive. reflexivity. }
  rewrite Hs1. split.
  { cbn. by rewrite lookup_alter_eq, Htab. }
  set (s2 := with_dom (upd_scrollTop y0) _).
  assert (Hdoc2 : documents (reg s2) !! tabId = Some doc) by exact Hdoc.
  assert (Htab2 : tabs (app s2) !! tabId = Some (apply_update (UpdScrollPosition y) tab))
    by (subst s2; cbn; by rewrite lookup_alter_eq, Htab).
  unfold switchToTab. rewrite Hdoc2.
  assert (Hstart : exists r, start (renderDocument tabId) s2 = r /\
                             tabs (app (fst r)) = tabs (app s2) /\
                             scrollTop (dom (fst r)) = y0).
  { destruct (numPages doc) as [|n] eqn:Hn.
    - rewrite (start_renderDocument_empty tabId s2 doc _ Hdoc2 Htab2 Hn).
      eexists. split; [reflexivity | by split].
    - destruct (start_renderDocument_pending tabId s2 doc _ Hdoc2 Htab2) as [k ->];
        [lia|].
      eexists. split; [reflexivity | by split]. }
  destruct Hstart as ([r st] & -> & Htabs & Hscroll). cbn [fst] in Htabs, Hscroll |- *.
  unfold restore_scroll. rewrite Htabs, Htab2. cbn.
  destruct (Qeq_bool y 0); [exact Hscroll | reflexivity].
Qed.

Lemma scroll_position_round_trip_witness :
  (tab_scrollPosition <$> tabs (app (dispatch (UserScrolls 640) loaded_state)) !! 7 =
     Some (Some 640%Q) /\
   scrollTop (dom (fst (switchToTab 7
                          (with_dom (upd_scrollTop 35)
                             (dispatch (UserScrolls 640) loaded_state))))) = 640%Q) /\
  (tab_scrollPosition <$> tabs (app (dispatch (UserScrolls 0) loaded_state)) !! 7 =
     Some (Some 0%Q) /\
   scrollTop (dom (fst (switchToTab 7
                          (with_dom (upd_scrollTop 35)
                             (dispatch (UserScrolls 0) loaded_state))))) = 35%Q).
Proof.
  split.
  - exact (scroll_position_round_trip 7 640 35 loaded_state sample_tab
             {| doc_id := 0; doc_body := body_of [good_page; good_page] |}
             eq_refl eq_refl eq_refl).
  - exact (scroll_position_round_trip 7 0 35 loaded_state sample_tab
             {| doc_id := 0; doc_body := body_of [good_page; good_page] |}
             eq_refl eq_refl eq_refl).
Defined.

(** ** Detection and the timer, again *)

Lemma run_detect_loop_first_hit tabId center pages : forall i s,
  run (detect_loop tabId center pages i) s =
    (match first_hit (pageRect (dom s)) center pages i with
     | Some pageNum => page_detected tabId pageNum s
     | None => s
     end, inr tt).
Proof.
  induction pages as [|page rest IH]; intros i s; [reflexivity|].
  cbn [detect_loop first_hit]. rewrite run_bind. cbn [gets run].
  destruct (contains_center (pageRect (dom s) (pc_node page)) center); [|apply IH].
  apply run_detect_hit.
Qed.

Lemma page_detected_frame tabId pageNum s :
  reg (page_detected tabId pageNum s) = reg s /\
  pageRect (dom (page_detected tabId pageNum s)) = pageRect (dom s) /\
  containerRect (dom (page_detected tabId pageNum s)) = containerRect (dom s).
Proof.
  unfold page_detected. destruct (tabs (app s) !! tabId) as [tab|]; [|by repeat split].
  destruct (decide (tab_currentPage tab = Some pageNum)); by repeat split.
Qed.

Lemma page_detected_twice tabId pageNum s :
  page_detected tabId pageNum (page_detected tabId pageNum s) =
    page_detected tabId pageNum s.
Proof.
  destruct (tabs (app s) !! tabId) as [tab|] eqn:Htab.
  - destruct (decide (tab_currentPage tab = Some pageNum)) as [He|Hne].
    + assert (H : page_detected tabId pageNum s = s).
      { unfold page_detected. rewrite Htab.
        destruct (decide (tab_currentPage tab = Some pageNum)); [reflexivity | contradiction]. }
      by rewrite !H.
    + assert (H : page_detected tabId pageNum s = set_current_page tabId pageNum s).
      { unfold page_detected. rewrite Htab.
        destruct (decide (tab_currentPage tab = Some pageNum)); [contradiction | reflexivity]. }
      rewrite H. unfold page_detected. cbn. rewrite lookup_alter_eq, Htab. cbn.
      destruct (decide (Some pageNum = Some pageNum)); [reflexivity | contradiction].
  - assert (H : page_detected tabId pageNum s = s)
      by (unfold page_detected; by rewrite Htab).
    by rewrite !H.
Qed.

(** X17: the detection is idempotent: run again on the state it left, it
    finds the same page, which is now the tab's current page, and changes
    nothing; the sidebar is not notified a second time. *)
Theorem detectCurrentPage_twice tabId s :
  run (detectCurrentPage tabId) (exec (detectCurrentPage tabId) s) =
    (exec (detectCurrentPage tabId) s, inr tt).
Proof.
  unfold exec.
  destruct (pageElements (reg s) !! tabId) as [pages|] eqn:Hpages.
  - rewrite (run_detectCurrentPage _ _ _ Hpages), run_detect_loop_first_hit. cbn [fst].
    destruct (first_hit (pageRect (dom s)) (center_of s) pages 0) as [pageNum|] eqn:Hhit.
    + destruct (page_detected_frame tabId pageNum s) as (Hreg & Hrect & Hcont).
      rewrite (run_detectCurrentPage tabId _ pages) by (by rewrite Hreg).
      rewrite run_detect_loop_first_hit. unfold center_of. rewrite Hrect, Hcont.
      fold (center_of s). rewrite Hhit, page_detected_twice. reflexivity.
    + rewrite (run_detectCurrentPage _ _ _ Hpages), run_detect_loop_first_hit, Hhit.
      reflexivity.
  - assert (H : run (detectCurrentPage tabId) s = (s, inr tt))
      by (unfold detectCurrentPage; cbn; by rewrite Hpages).
    rewrite H. exact H.
Qed.

(** X18: the debounce timer fires once.  In every run of the event loop
    from a new renderer, once the pending timer has fired, being due, no
    timer is pending: every handled scroll event cancelled the timer
    pending before it, so none is left behind, and the firing of any timer
    then changes nothing.  A firing before the timer is due leaves
    everything as it is, the pending timer included. *)
Theorem timer_fires_once a d w p events s timer :
  strayTimers w = [] ->
  s = event_loop events (constructor a d w p) ->
  scrollTimeout (win s) = Some timer ->
  (timer_due timer <= clock (win s) ->
   scrollTimeout (win (dispatch TimerFires s)) = None /\
   strayTimers (win (dispatch TimerFires s)) = [] /\
   forall e, is_firing e ->
     dispatch e (dispatch TimerFires s) = dispatch TimerFires s) /\
  (clock (win s) < timer_due timer ->
   dispatch TimerFires s = s /\ scrollTimeout (win s) = Some timer).
Proof.
  intros Hw Hs Htimer.
  assert (Hstray : strayTimers (win s) = [])
    by (rewrite Hs; by apply event_loop_stray).
  rewrite (dispatch_timer _ _ Htimer). split.
  - intros Hdue. apply Nat.leb_le in Hdue. rewrite Hdue.
    split; [by rewrite timer_fired_win|].
    split; [by rewrite timer_fired_win|].
    intros e [-> | [i ->]]; cbn [dispatch]; rewrite timer_fired_win; cbn;
      [reflexivity | by rewrite Hstray].
  - intros Hlt. apply Nat.leb_gt in Hlt. rewrite Hlt. by split.
Qed.

Lemma timer_fires_once_witness :
  let s := event_loop [Calls (LoadDocument [Byte.x25] 7); UserScrolls 1400;
                       TimePasses 60; UserScrolls 1500; TimePasses 100] fresh_state in
  scrollTimeout (win (dispatch TimerFires s)) = None /\
  strayTimers (win (dispatch TimerFires s)) = [] /\
  dispatch TimerFires (dispatch TimerFires s) = dispatch TimerFires s /\
  dispatch (StrayTimerFires 0) (dispatch TimerFires s) = dispatch TimerFires s.
Proof.
  intros s.
  destruct (timer_fires_once sample_app sample_dom sample_window sample_pdfjs
              [Calls (LoadDocument [Byte.x25] 7); UserScrolls 1400;
               TimePasses 60; UserScrolls 1500; TimePasses 100]
              s {| timer_due := 160; timer_tab := 7 |})
    as [Hfired _].
  - reflexivity.
  - reflexivity.
  - vm_compute. reflexivity.
  - destruct Hfired as (Hslot & Hstray & Hagain).
    + apply Nat.leb_le. vm_compute. reflexivity.
    + split; [exact Hslot|]. split; [exact Hstray|].
      split; apply Hagain; [by left | right; by exists 0].
Defined.

(** ** Registered handles are live *)

Lemma goToPage_pdfjs tabId pageNum s : pdfjs (exec (goToPage tabId pageNum) s) = pdfjs s.
Proof.
  unfold exec, goToPage. cbn.
  destruct (pageElements (reg s) !! tabId) as [pages|]; cbn; [|reflexivity].
  destruct (pageNum <? 1)%Z; cbn; [reflexivity|].
  destruct (Z.of_nat (length pages) <? pageNum)%Z; cbn; [reflexivity|].
  destruct (pages !! Z.to_nat (pageNum - 1)); reflexivity.
Qed.

Lemma renderDocument_among_pdfjs env tabId s :
  Forall quiet env ->
  pdfjs (exec_among env (renderDocument tabId) s) = pdfjs s.
Proof.
  intros Henv. unfold exec_among, renderDocument. cbn -[render_pages].
  destruct (documents (reg s) !! tabId) as [doc|]; cbn -[render_pages]; [|reflexivity].
  destruct (tabs (app s) !! tabId) as [tab|]; cbn -[render_pages]; [|reflexivity].
  rewrite run_among_bind.
  match goal with
  | |- context [run_among env ?m ?s0] =>
      destruct (keeps_among m env s0 Henv (render_pages_keeps _ _ _ _ _))
        as [_ (_ & _ & Hp & _)];
      destruct (run_among env m s0) as [[env' s'] [e|pages]]
  end; cbn in Hp |- *; exact Hp.
Qed.

(** Apart from loading and closing, no operation touches the document
    registry or the library. *)
Lemma perform_keeps_handles op s :
  match op with
  | LoadDocument _ _ | CloseDocument _ => True
  | _ => documents (reg (perform op s)) = documents (reg s) /\
         pdfjs (perform op s) = pdfjs s
  end.
Proof.
  assert (Hrender : forall tabId s0,
             documents (reg (fst (run (renderDocument tabId) s0))) = documents (reg s0) /\
             pdfjs (fst (run (renderDocument tabId) s0)) = pdfjs s0).
  { intros tabId s0. destruct (renderDocument_frame tabId s0) as [Hf _].
    split; apply Hf. }
  destruct op; cbn [perform]; unfold exec; try exact I.
  - apply Hrender.
  - destruct (documents (reg s) !! tabId) as [doc|] eqn:Hdoc.
    + destruct (switchToTab_settled_among tabId s (ex_intro _ doc Hdoc))
        as (Hreg & _ & Hp & _).
      assert (Hquiet : Forall quiet [restore_scroll tabId])
        by (constructor; [apply restore_scroll_quiet | constructor]).
      rewrite Hreg, Hp. split.
      * apply (renderDocument_among [restore_scroll tabId] tabId s Hquiet).
      * by apply renderDocument_among_pdfjs.
    + unfold switchToTab_settled, switchToTab. rewrite Hdoc. by split.
  - unfold setZoom. cbn -[renderDocument].
    destruct (tabs (app s) !! tabId); cbn -[renderDocument]; [|by split].
    rewrite run_await_call.
    match goal with
    | |- context [run (renderDocument tabId) ?s0] =>
        destruct (Hrender tabId s0) as [-> ->]
    end.
    by split.
  - unfold setRotation. cbn -[renderDocument goToPage].
    destruct (tabs (app s) !! tabId) as [tab|]; cbn -[renderDocument goToPage];
      [|by split].
    rewrite run_bind, run_await_call.
    specialize (Hrender tabId s).
    destruct (run (renderDocument tabId) s) as [s1 [e|[]]]; cbn in Hrender;
      [exact Hrender|].
    rewrite run_await_call.
    pose proof (goToPage_reg tabId (or_default_Z (tab_currentPage tab) 1) s1) as Hr.
    pose proof (goToPage_pdfjs tabId (or_default_Z (tab_currentPage tab) 1) s1) as Hp.
    unfold exec in Hr, Hp. rewrite Hr, Hp. exact Hrender.
  - unfold setPageLayout. rewrite run_await_call. apply Hrender.
  - pose proof (goToPage_reg tabId pageNum s) as Hr.
    pose proof (goToPage_pdfjs tabId pageNum s) as Hp.
    unfold exec in Hr, Hp. by rewrite Hr, Hp.
Qed.

Lemma handles_sound_load data tabId s :
  handles_sound s -> handles_sound (exec (loadDocument data tabId) s).
Proof.
  intros (Hd & Hr & Hu).
  destruct (getDocument (pdfjs s) data) as [e|body] eqn:Hload.
  { unfold exec. rewrite (run_loadDocument_fail _ _ _ _ Hload).
    exact (conj Hd (conj Hr Hu)). }
  destruct (loadDocument_ok_state data tabId s body Hload) as (Hdocs & Hpdfjs & _).
  unfold handles_sound. rewrite Hdocs, Hpdfjs. cbn.
  assert (Hfresh : next_doc (pdfjs s) ∉ destroyed (pdfjs s)).
  { intros Hin. apply Hd in Hin. lia. }
  split; [|split].
  - intros d Hin. apply Hd in Hin. lia.
  - intros t doc Hl. destruct (decide (tabId = t)) as [->|Hne].
    + rewrite lookup_insert_eq in Hl. injection Hl as <-. cbn. split; [lia | exact Hfresh].
    + rewrite lookup_insert_ne in Hl by exact Hne.
      destruct (Hr t doc Hl). split; [lia | assumption].
  - intros t1 t2 doc1 doc2 H1 H2 Heq.
    destruct (decide (t1 = tabId)) as [->|Hne1]; destruct (decide (t2 = tabId)) as [->|Hne2].
    + reflexivity.
    + rewrite lookup_insert_eq in H1. rewrite lookup_insert_ne in H2 by congruence.
      injection H1 as <-. cbn in Heq. destruct (Hr t2 doc2 H2). lia.
    + rewrite lookup_insert_eq in H2. rewrite lookup_insert_ne in H1 by congruence.
      injection H2 as <-. cbn in Heq. destruct (Hr t1 doc1 H1). lia.
    + rewrite lookup_insert_ne in H1 by congruence.
      rewrite lookup_insert_ne in H2 by congruence. by apply (Hu t1 t2 doc1 doc2).
Qed.

Lemma handles_sound_close tabId s :
  handles_sound s -> handles_sound (exec (closeDocument tabId) s).
Proof.
  intros (Hd & Hr & Hu). unfold exec. rewrite run_closeDocument.
  unfold handles_sound, closed.
  destruct (documents (reg s) !! tabId) as [doc|] eqn:Hdoc; cbn.
  - split; [|split].
    + intros d Hin. apply elem_of_app in Hin as [Hin|Hin]; [by apply Hd|].
      apply list_elem_of_singleton in Hin as ->. by apply (Hr tabId).
    + intros t doc' Hl. apply lookup_delete_Some in Hl as [Hne Hl].
      destruct (Hr t doc' Hl) as [Hlt Hnin]. split; [exact Hlt|].
      intros Hin. apply elem_of_app in Hin as [Hin|Hin]; [contradiction|].
      apply list_elem_of_singleton in Hin.
      apply Hne. symmetry. by apply (Hu t tabId doc' doc).
    + intros t1 t2 doc1 doc2 H1 H2.
      apply lookup_delete_Some in H1 as [_ H1]. apply lookup_delete_Some in H2 as [_ H2].
      by apply Hu.
  - split; [exact Hd|]. split.
    + intros t doc' Hl. apply lookup_delete_Some in Hl as [_ Hl]. by apply (Hr t).
    + intros t1 t2 doc1 doc2 H1 H2.
      apply lookup_delete_Some in H1 as [_ H1]. apply lookup_delete_Some in H2 as [_ H2].
      by apply Hu.
Qed.

Lemma handles_sound_perform op s : handles_sound s -> handles_sound (perform op s).
Proof.
  intros H. pose proof (perform_keeps_handles op s) as Hk.
  destruct op; cbn [perform]; try (by apply handles_sound_load);
    try (by apply handles_sound_close);
    destruct Hk as [Hdocs Hp]; cbn [perform] in Hdocs, Hp;
    unfold handles_sound; rewrite Hdocs, Hp; exact H.
Qed.

(** X19: in every sequence of operations after the constructor, started
    with a library whose counter is ahead of the handles it has already
    destroyed, a handle in the document registry is never a destroyed
    one, and no handle is registered for two tabs: what [getDocument]
    returns and what a render uses can still be used. *)
Theorem registered_handles_are_live a d w p ops :
  (forall x, x ∈ destroyed p -> x < next_doc p) ->
  handles_sound (perform_all ops (constructor a d w p)).
Proof.
  intros Hp. unfold perform_all.
  assert (H0 : handles_sound (constructor a d w p)).
  { split; [exact Hp|]. split.
    - intros t doc Hl. cbn in Hl. by rewrite lookup_empty in Hl.
    - intros t1 t2 doc1 doc2 Hl. cbn in Hl. by rewrite lookup_empty in Hl. }
  revert H0. generalize (constructor a d w p).
  induction ops as [|op ops IH]; intros s H; cbn; [exact H|].
  apply IH, handles_sound_perform, H.
Qed.

Lemma registered_handles_are_live_witness :
  handles_sound
    (perform_all [LoadDocument [Byte.x25] 7; LoadDocument [Byte.x21] 7;
                  SwitchToTab 7; CloseDocument 7; LoadDocument [Byte.x3f] 8]
       fresh_state).
Proof.
  apply (registered_handles_are_live sample_app sample_dom sample_window sample_pdfjs).
  intros x Hx. cbn in Hx. by apply not_elem_of_nil in Hx.
Defined.

(** ** What never alerts *)

Section Confined.
Variable R : State -> State -> Prop.
Hypothesis R_refl : forall s, R s s.
Hypothesis R_trans : forall s1 s2 s3, R s1 s2 -> R s2 s3 -> R s1 s3.

Lemma confined_bind {A B} (m : Async A) (f : A -> Async B) s :
  confined R m s ->
  (forall a s', R s s' -> confined R (f a) s') ->
  confined R (bind m f) s.
Proof.
  revert s. induction m as [a|e|k IH|s0 k IH|k IH]; intros s Hm Hf; cbn in *.
  - apply Hf, R_refl.
  - exact I.
  - by apply IH.
  - destruct Hm as [Hs Hk]. split; [exact Hs|].
    apply IH; [exact Hk|]. intros a s' Hs'. apply Hf. by apply R_trans with s0.
  - intros s' Hs'. apply IH; [by apply Hm|].
    intros a s2 Hs2. apply Hf. by apply R_trans with s'.
Qed.

Lemma confined_run {A} (m : Async A) : forall s,
  confined R m s -> R s (fst (run m s)).
Proof.
  induction m as [a|e|k IH|s0 k IH|k IH]; intros s Hm; cbn in *.
  - apply R_refl.
  - apply R_refl.
  - by apply IH.
  - destruct Hm as [Hs Hk]. apply R_trans with s0; [exact Hs | by apply IH].
  - apply IH, Hm, R_refl.
Qed.

Lemma confined_start {A} (m : Async A) : forall s,
  confined R m s ->
  R s (fst (start m s)) /\
  match snd (start m s) with
  | Pending k => forall s', R (fst (start m s)) s' -> confined R k s'
  | Settled _ => True
  end.
Proof.
  induction m as [a|e|k IH|s0 k IH|k IH]; intros s Hm; cbn in *.
  - split; [apply R_refl | exact I].
  - split; [apply R_refl | exact I].
  - by apply IH.
  - destruct Hm as [Hs Hk]. destruct (IH s0 Hk) as [H1 H2].
    split; [by apply R_trans with s0 | exact H2].
  - split; [apply R_refl | exact Hm].
Qed.
End Confined.

Lemma same_alerts_refl s : same_alerts s s.
Proof. reflexivity. Qed.

Lemma same_alerts_trans s1 s2 s3 :
  same_alerts s1 s2 -> same_alerts s2 s3 -> same_alerts s1 s3.
Proof. unfold same_alerts. congruence. Qed.

Lemma createPageContainer_no_alert doc pageNum tabId s :
  confined same_alerts (createPageContainer doc pageNum tabId) s.
Proof.
  unfold createPageContainer. cbn. intros s1 _.
  destruct (getPage doc pageNum) as [e|page]; cbn; [exact I|].
  destruct (tabs (app s) !! tabId) as [tab|]; cbn; [|exact I].
  split; [reflexivity|]. intros s2 _.
  destruct (page_render page) as [e|]; cbn; [exact I|]. intros s3 _.
  destruct (page_getTextContent page) as [e|]; cbn.
  { split; [reflexivity | exact I]. }
  intros s4 _.
  destruct (page_textLayer page) as [e|]; cbn; [|exact I].
  split; [reflexivity | exact I].
Qed.

Lemma render_pages_no_alert doc tabId pageNums : forall pages s,
  confined same_alerts (render_pages doc tabId pageNums pages) s.
Proof.
  induction pageNums as [|pageNum rest IH]; intros pages s; cbn -[createPageContainer].
  - exact I.
  - apply (confined_bind same_alerts same_alerts_refl same_alerts_trans).
    + unfold await_call.
      apply (confined_bind same_alerts same_alerts_refl same_alerts_trans);
        [apply createPageContainer_no_alert|].
      intros pc s' _. cbn. auto.
    + intros pc s' _. cbn. split; [reflexivity | apply IH].
Qed.

Lemma renderDocument_no_alert tabId s :
  confined same_alerts (renderDocument tabId) s.
Proof.
  unfold renderDocument. cbn -[render_pages].
  destruct (documents (reg s) !! tabId) as [doc|]; cbn -[render_pages]; [|exact I].
  destruct (tabs (app s) !! tabId) as [tab|]; cbn -[render_pages]; [|exact I].
  split; [reflexivity|]. split; [reflexivity|].
  apply (confined_bind same_alerts same_alerts_refl same_alerts_trans);
    [apply render_pages_no_alert|].
  intros pages s' _. cbn. split; [reflexivity | exact I].
Qed.

Lemma switchToTab_settled_no_alert tabId s :
  alerts (win (switchToTab_settled tabId s)) = alerts (win s).
Proof.
  unfold switchToTab_settled, switchToTab.
  destruct (documents (reg s) !! tabId) as [doc|]; [|reflexivity].
  destruct (confined_start same_alerts same_alerts_refl same_alerts_trans
              (renderDocument tabId) s (renderDocument_no_alert tabId s)) as [H1 H2].
  assert (Hrestore : forall x, same_alerts x (restore_scroll tabId x)).
  { intros x. unfold same_alerts, restore_scroll.
    destruct (tabs (app x) !! tabId) as [tab|]; [|reflexivity].
    destruct (tab_scrollPosition tab) as [y|]; [|reflexivity].
    by destruct (Qeq_bool y 0). }
  destruct (start (renderDocument tabId) s) as [s1 [r|k]]; cbn in H1, H2 |- *.
  - rewrite <- H1. apply Hrestore.
  - rewrite <- H1. unfold exec.
    pose proof (confined_run same_alerts same_alerts_refl same_alerts_trans k
                  (restore_scroll tabId s1) (H2 _ (Hrestore s1))) as H3.
    unfold same_alerts in H3. rewrite H3. apply Hrestore.
Qed.

(** X20: the only operation that ever raises an alert is [loadDocument],
    and it raises at most one per call, for the error it rethrows.  No
    render, tab switch, close, zoom, rotation, layout change or page jump
    alerts, whatever happens to the pages. *)
Theorem alerts_only_on_load op s :
  alerts (win (perform op s)) = alerts (win s) \/
  exists data tabId e,
    op = LoadDocument data tabId /\
    snd (run (loadDocument data tabId) s) = inl e /\
    alerts (win (perform op s)) = (alerts (win s) ++ [("Error loading PDF: " ++ e)%string])%list.
Proof.
  assert (Hrender : forall tabId s0,
             alerts (win (fst (run (renderDocument tabId) s0))) = alerts (win s0)).
  { intros tabId s0. destruct (renderDocument_frame tabId s0) as [Hf _]. apply Hf. }
  destruct op; cbn [perform]; unfold exec.
  - destruct (getDocument (pdfjs s) data) as [e|body] eqn:Hload.
    + right. exists data, tabId, e. rewrite (run_loadDocument_fail _ _ _ _ Hload).
      by repeat split.
    + specialize (Hrender tabId (registered tabId body s)).
      destruct (run (renderDocument tabId) (registered tabId body s)) as [s' [e|[]]] eqn:Hrun;
        cbn [fst] in Hrender.
      * right. exists data, tabId, e. rewrite (run_loadDocument_ok _ _ _ _ Hload), Hrun.
        cbn. rewrite Hrender. by repeat split.
      * left. rewrite (run_loadDocument_ok _ _ _ _ Hload), Hrun. exact Hrender.
  - left. apply Hrender.
  - left. rewrite run_closeDocument. unfold closed.
    by destruct (documents (reg s) !! tabId).
  - left. apply switchToTab_settled_no_alert.
  - left. unfold setZoom. cbn -[renderDocument].
    destruct (tabs (app s) !! tabId); cbn -[renderDocument]; [|reflexivity].
    rewrite run_await_call. by rewrite Hrender.
  - left. unfold setRotation. cbn -[renderDocument goToPage].
    destruct (tabs (app s) !! tabId) as [tab|]; cbn -[renderDocument goToPage];
      [|reflexivity].
    rewrite run_bind, run_await_call.
    specialize (Hrender tabId s).
    destruct (run (renderDocument tabId) s) as [s1 [e|[]]]; cbn in Hrender;
      [exact Hrender|].
    rewrite run_await_call.
    pose proof (goToPage_win tabId (or_default_Z (tab_currentPage tab) 1) s1) as Hw.
    unfold exec in Hw. by rewrite Hw.
  - left. unfold setPageLayout. rewrite run_await_call. apply Hrender.
  - left. pose proof (goToPage_win tabId pageNum s) as Hw. unfold exec in Hw.
    by rewrite Hw.
Qed.

(** ** Which tab the detection is for *)

Lemma exec_detectCurrentPage tabId s :
  exec (detectCurrentPage tabId) s =
    match pageElements (reg s) !! tabId with
    | Some pages =>
        match first_hit (pageRect (dom s)) (center_of s) pages 0 with
        | Some pageNum => page_detected tabId pageNum s
        | None => s
        end
    | None => s
    end.
Proof.
  unfold exec. destruct (pageElements (reg s) !! tabId) as [pages|] eqn:Hpages.
  - by rewrite (run_detectCurrentPage _ _ _ Hpages), run_detect_loop_first_hit.
  - unfold detectCurrentPage. cbn. by rewrite Hpages.
Qed.

Lemma detectCurrentPage_activeTab tabId other s :
  exec (detectCurrentPage tabId) (with_app (set_activeTab other) s) =
    with_app (set_activeTab other) (exec (detectCurrentPage tabId) s).
Proof.
  rewrite !exec_detectCurrentPage. cbn.
  destruct (pageElements (reg s) !! tabId) as [pages|]; [|reflexivity].
  change (center_of (with_app (set_activeTab other) s)) with (center_of s).
  destruct (first_hit (pageRect (dom s)) (center_of s) pages 0) as [pageNum|];
    [|reflexivity].
  unfold page_detected. cbn.
  destruct (tabs (app s) !! tabId) as [tab|]; [|reflexivity].
  destruct (decide (tab_currentPage tab = Some pageNum)); reflexivity.
Qed.

(** X21: the detection is for the tab that was active when the user
    scrolled, not for the tab that is active when the timer fires:
    activating another tab, or none, before the timer fires changes
    nothing in what the firing does. *)
Theorem detection_for_scrolled_tab other s :
  dispatch TimerFires (dispatch (ShellActivates other) s) =
    dispatch (ShellActivates other) (dispatch TimerFires s).
Proof.
  cbn [dispatch].
  change (scrollTimeout (win (with_app (set_activeTab other) s)))
    with (scrollTimeout (win s)).
  change (clock (win (with_app (set_activeTab other) s))) with (clock (win s)).
  destruct (scrollTimeout (win s)) as [timer|]; [|reflexivity].
  destruct (Nat.leb (timer_due timer) (clock (win s))); [|reflexivity].
  rewrite !exec_on_timeout.
  exact (detectCurrentPage_activeTab (timer_tab timer) other
           (with_win (upd_journal (DetectRan (clock (win s)) (timer_tab timer)))
              (with_win (upd_scrollTimeout None) s))).
Qed.

(** X22: a scroll event that arrives while no tab is active is not handled
    at all, so it does not postpone a pending detection: with a timer
    pending, the shell leaving no tab active, the user scrolling and [ms]
    milliseconds passing, the detection runs as soon as the timer is due,
    however short [ms] is. *)
Theorem unhandled_scroll_keeps_timer y ms s timer :
  scrollTimeout (win s) = Some timer ->
  timer_due timer <= clock (win s) + ms ->
  journal (win (event_loop [ShellActivates None; UserScrolls y; TimePasses ms; TimerFires]
                  s)) =
    (journal (win s) ++ [DetectRan (clock (win s) + ms) (timer_tab timer)])%list /\
  scrollTimeout
    (win (event_loop [ShellActivates None; UserScrolls y; TimePasses ms; TimerFires] s)) =
    None.
Proof.
  intros Htimer Hdue. unfold event_loop. cbn [fold_left].
  assert (H1 : dispatch (UserScrolls y) (dispatch (ShellActivates None) s) =
               with_dom (upd_scrollTop y) (with_app (set_activeTab None) s))
    by reflexivity.
  rewrite H1. cbn [dispatch].
  change (scrollTimeout (win (with_win _ (with_dom _ (with_app _ s)))))
    with (scrollTimeout (win s)).
  rewrite Htimer. cbn [with_win with_dom with_app win clock upd_clock].
  apply Nat.leb_le in Hdue. rewrite Hdue.
  rewrite exec_on_timeout.
  pose proof (detectCurrentPage_win (timer_tab timer)) as Hw. rewrite Hw. by split.
Qed.

Lemma unhandled_scroll_keeps_timer_witness :
  journal (win (event_loop [ShellActivates None; UserScrolls 9; TimePasses 0; TimerFires]
                  (event_loop [UserScrolls 1400; TimePasses 100] loaded_state))) =
    [ScrollHandled 0 7; DetectRan 100 7] /\
  scrollTimeout
    (win (event_loop [ShellActivates None; UserScrolls 9; TimePasses 0; TimerFires]
            (event_loop [UserScrolls 1400; TimePasses 100] loaded_state))) = None.
Proof.
  apply (unhandled_scroll_keeps_timer 9 0
           (event_loop [UserScrolls 1400; TimePasses 100] loaded_state)
           {| timer_due := 100; timer_tab := 7 |}).
  - reflexivity.
  - cbn. lia.
Defined.

(** ** What a render logs *)

Lemma run_render_pages_console doc tabId tab pageNums : forall pages s,
  tabs (app s) !! tabId = Some tab ->
  Forall (fun n => exists page, getPage doc n = inr page /\ page_render page = None)
    pageNums ->
  console (win (fst (run (render_pages doc tabId pageNums pages) s))) =
    (console (win s) ++ text_errors doc pageNums)%list.
Proof.
  induction pageNums as [|pageNum rest IH]; intros pages s Htab Hall.
  - cbn. by rewrite app_nil_r.
  - apply Forall_cons in Hall as [(page & Hpage & Hrender) Hall].
    cbn -[createPageContainer].
    rewrite run_bind, run_await_call.
    rewrite (run_createPageContainer _ _ _ _ tab page Htab Hpage Hrender).
    cbn -[rendered_page].
    rewrite IH; [|unfold after_page; destruct (text_error page); exact Htab | exact Hall].
    unfold text_errors. cbn [omap]. rewrite Hpage. fold (text_errors doc rest).
    unfold after_page. destruct (text_error page) as [e|]; cbn; [|reflexivity].
    by rewrite <- app_assoc.
Qed.

(** X23: a render whose pages are all fetched and rasterised logs exactly
    one console error for each page whose text layer fails, in page
    order, and nothing else. *)
Theorem renderDocument_logs_text_errors tabId s doc tab :
  documents (reg s) !! tabId = Some doc ->
  tabs (app s) !! tabId = Some tab ->
  renders (doc_body doc) ->
  console (win (exec (renderDocument tabId) s)) =
    (console (win s) ++ text_errors doc (seq 1 (numPages doc)))%list.
Proof.
  intros Hdoc Htab Hok. unfold exec.
  rewrite (run_renderDocument _ _ doc tab Hdoc Htab).
  pose proof (run_render_pages_console doc tabId tab (seq 1 (numPages doc)) []
                (cleared tab s) Htab (renders_in_range doc Hok)) as Hc.
  destruct (run (render_pages doc tabId (seq 1 (numPages doc)) []) (cleared tab s))
    as [s' [e|pages]]; exact Hc.
Qed.

Lemma renderDocument_logs_text_errors_witness :
  console (win (exec (renderDocument 7) untexted_state)) =
    [("Error rendering text layer:", "Invalid font data");
     ("Error rendering text layer:", "Invalid font data")].
Proof.
  exact (renderDocument_logs_text_errors 7 untexted_state
           {| doc_id := 0; doc_body := body_of [untexted_page; good_page] |} sample_tab
           eq_refl eq_refl
           (fun n Hn =>
              match n as m return 1 <= m <= 2 ->
                 exists page, body_getPage (body_of [untexted_page; good_page]) m = inr page /\
                              page_render page = None with
              | 1 => fun _ => ex_intro _ untexted_page (conj eq_refl eq_refl)
              | 2 => fun _ => ex_intro _ good_page (conj eq_refl eq_refl)
              | _ => fun H => ltac:(exfalso; lia)
              end Hn)).
Defined.

(** X24: the three layers of a page lie exactly over one another: for a
    page that is fetched and rasterised, the text layer and the
    annotation layer have the CSS size of the canvas, which is the size
    of the page container, and container and annotation layer carry the
    page number (the annotation layer also the tab) they were built for. *)
Theorem createPageContainer_layers_aligned doc pageNum tabId s tab page :
  tabs (app s) !! tabId = Some tab ->
  getPage doc pageNum = inr page ->
  page_render page = None ->
  exists s' pc canvas text ann,
    run (createPageContainer doc pageNum tabId) s = (s', inr pc) /\
    pc_children pc = [CanvasNode canvas; TextLayerNode text; AnnotationLayerNode ann] /\
    (text_style_width text, text_style_height text) =
      (canvas_style_width canvas, canvas_style_height canvas) /\
    (ann_style_width ann, ann_style_height ann) =
      (canvas_style_width canvas, canvas_style_height canvas) /\
    (pc_style_width pc, pc_style_height pc) =
      (canvas_style_width canvas, canvas_style_height canvas) /\
    pc_page pc = pageNum /\ ann_page ann = pageNum /\ ann_tab ann = tabId.
Proof.
  intros Htab Hpage Hrender.
  rewrite (run_createPageContainer _ _ _ _ tab page Htab Hpage Hrender).
  unfold rendered_page, page_div.
  eexists _, _, _, _, _. split; [reflexivity|]. cbn. by repeat split.
Qed.

Lemma createPageContainer_layers_aligned_witness :
  exists s' pc canvas text ann,
    run (createPageContainer (new_handle fresh_state (body_of [untexted_page; good_page]))
           1 7) fresh_state = (s', inr pc) /\
    pc_children pc = [CanvasNode canvas; TextLayerNode text; AnnotationLayerNode ann] /\
    (text_style_width text, text_style_height text) =
      (canvas_style_width canvas, canvas_style_height canvas) /\
    (ann_style_width ann, ann_style_height ann) =
      (canvas_style_width canvas, canvas_style_height canvas) /\
    (pc_style_width pc, pc_style_height pc) =
      (canvas_style_width canvas, canvas_style_height canvas) /\
    pc_page pc = 1 /\ ann_page ann = 1 /\ ann_tab ann = 7.
Proof.
  exact (createPageContainer_layers_aligned
           (new_handle fresh_state (body_of [untexted_page; good_page]))
           1 7 fresh_state sample_tab untexted_page eq_refl eq_refl eq_refl).
Defined.

(** X25: [setZoom] stores the zoom before it renders, so the tab manager
    holds the new zoom whatever becomes of the render, also when it
    throws; no other tab and no other property of the tab is written. *)
Theorem setZoom_always_stores tabId zoom s :
  tabs (app (exec (setZoom tabId zoom) s)) =
    alter (apply_update (UpdZoom zoom)) tabId (tabs (app s)).
Proof.
  unfold exec, setZoom. cbn -[renderDocument].
  destruct (tabs (app s) !! tabId) as [tab|] eqn:Htab; cbn -[renderDocument].
  - rewrite run_await_call.
    match goal with
    | |- context [run (renderDocument tabId) ?s0] =>
        destruct (renderDocument_frame tabId s0) as [Hf _]
    end.
    by rewrite (frame_app _ _ Hf).
  - symmetry. apply map_eq. intros t.
    destruct (decide (tabId = t)) as [->|Hne].
    + by rewrite lookup_alter_eq, Htab.
    + by rewrite lookup_alter_ne.
Qed.
